(** * Credit-card fraud detection service: the Flask wrapper [src/app.py]

    A shallow embedding of the serving code: the three module globals
    ([model], [preprocessor], [RESOURCES_LOADED]), the start-up routine
    [load_resources] and the two request handlers [home] and [predict].

    Python values that arrive in a JSON body are an inductive type whose
    objects are finite maps; the handlers are written in a small monad that
    threads the globals, records the calls made into the libraries and
    propagates exceptions, with [try ... except] as a combinator.  What is
    not part of this repository is taken as given: Python's [float] and
    [repr] are the fields of a [builtins] record, joblib, the fitted
    preprocessor, the classifier and the template engine those of a
    [library] record, and a request is what Flask's JSON decoder made of
    its body. *)

From Stdlib Require Import ZArith Ascii String.
From stdpp Require Import gmap strings list fin_maps.

Set Warnings "-register-all".
Set Default Proof Using "Type".

Open Scope string_scope.

(** ** Exceptions

    Everything raised here is an instance of Python's [Exception]; the
    class decides which [except] clause catches it and [exn_str] is what
    [str(e)] and an f-string print. *)

Inductive exn_class : Type :=
  | KeyError
  | TypeError
  | ValueError
  | OverflowError
  | IndexError
  | AttributeError
  | OtherError (name : string).

Record exn : Type := Exn { exn_cls : exn_class; exn_str : string }.

Definition is_ValueError (e : exn) : bool :=
  match exn_cls e with ValueError => true | _ => false end.

(** [except Exception] catches every exception of the model. *)
Definition is_Exception (e : exn) : bool := true.

(** ** Python values decoded from JSON *)

Section Values.

(** Python's [float]. *)
Variable F : Type.

Inductive pyval : Type :=
  | PNone
  | PBool (b : bool)
  | PInt (z : Z)
  | PFloat (f : F)
  | PStr (s : string)
  | PList (l : list pyval)
  | PDict (d : gmap string pyval).

Definition type_name (v : pyval) : string :=
  match v with
  | PNone => "NoneType"
  | PBool _ => "bool"
  | PInt _ => "int"
  | PFloat _ => "float"
  | PStr _ => "str"
  | PList _ => "list"
  | PDict _ => "dict"
  end.

(** What Python's [float], [repr] and integer conversion do is fixed by
    the interpreter, not by this repository. *)
Record builtins : Type := {
  (** [float(s)] on a string: [None] when the text is not a number
      (Python raises [ValueError]). *)
  float_of_str : string -> option F;
  (** [float(n)] on an integer: [None] when [n] is too large for a double
      (Python raises [OverflowError]). *)
  float_of_int : Z -> option F;
  (** [repr(s)] of a string. *)
  repr_str : string -> string
}.

Variable py : builtins.

(** [float(v)] *)
Definition py_float (v : pyval) : exn + F :=
  match v with
  | PFloat f => inr f
  | PInt z =>
      match float_of_int py z with
      | Some f => inr f
      | None => inl (Exn OverflowError "int too large to convert to float")
      end
  | PBool b =>
      match float_of_int py (if b then 1 else 0)%Z with
      | Some f => inr f
      | None => inl (Exn OverflowError "int too large to convert to float")
      end
  | PStr s =>
      match float_of_str py s with
      | Some f => inr f
      | None =>
          inl (Exn ValueError
                 ("could not convert string to float: " ++ repr_str py s))
      end
  | PNone | PList _ | PDict _ =>
      inl (Exn TypeError
             ("float() argument must be a string or a real number, not '"
                ++ type_name v ++ "'"))
  end.

(** [v[k]] with a string key [k] *)
Definition getitem (v : pyval) (k : string) : exn + pyval :=
  match v with
  | PDict d =>
      match d !! k with
      | Some x => inr x
      | None => inl (Exn KeyError (repr_str py k))
      end
  | PList _ =>
      inl (Exn TypeError "list indices must be integers or slices, not str")
  | PStr _ =>
      inl (Exn TypeError "string indices must be integers, not 'str'")
  | PNone | PBool _ | PInt _ | PFloat _ =>
      inl (Exn TypeError ("'" ++ type_name v ++ "' object is not subscriptable"))
  end.

(** [v[k] = x] with a string key [k]; the dictionary is updated in place,
    which the model renders by returning the updated value. *)
Definition setitem (v : pyval) (k : string) (x : pyval) : exn + pyval :=
  match v with
  | PDict d => inr (PDict (<[k := x]> d))
  | PList _ =>
      inl (Exn TypeError "list indices must be integers or slices, not str")
  | PNone | PBool _ | PInt _ | PFloat _ | PStr _ =>
      inl (Exn TypeError
             ("'" ++ type_name v ++ "' object does not support item assignment"))
  end.

End Values.

Arguments PNone {F}.
Arguments PBool {F} b.
Arguments PInt {F} z.
Arguments PFloat {F} f.
Arguments PStr {F} s.
Arguments PList {F} l.
Arguments PDict {F} d.
Arguments type_name {F} v.
Arguments float_of_str {F} _ _.
Arguments float_of_int {F} _ _.
Arguments repr_str {F} _ _.
Arguments py_float {F} py v.
Arguments getitem {F} py v k.
Arguments setitem {F} v k x.

(** ** The service *)

Section Service.

(** Python floats; the objects joblib deserialises (anything but [None]);
    the matrix the preprocessor produces; the scalars found in the arrays
    the classifier returns. *)
Context {F Obj Mat Lab Prob : Type}.

Variable py : builtins F.

(** One row of a table: column names with their cells, in column order. *)
Definition row : Type := list (string * pyval F).

(** [pd.DataFrame(rows)] built from a list of dictionaries. *)
Definition DataFrame : Type := list row.

(** The calls that leave this module. *)
Record library : Type := {
  (** [joblib.load(path)]; the file may hold any pickled object,
      [None] included. *)
  joblib_load : string -> exn + option Obj;
  (** [o.transform(df)] *)
  transform : Obj -> DataFrame -> exn + Mat;
  (** [o.predict(X)], a one-dimensional array *)
  predict_labels : Obj -> Mat -> exn + list Lab;
  (** [o.predict_proba(X)], a two-dimensional array *)
  predict_proba : Obj -> Mat -> exn + list (list Prob);
  (** [int(x)] on an element of the label array *)
  int_of_label : Lab -> exn + Z;
  (** [float(x)] on an element of the probability array *)
  float_of_prob : Prob -> exn + F;
  (** [render_template(name, message=msg)] *)
  render_template : string -> string -> exn + string
}.

Variable lib : library.

(** *** Globals, lines 16-18 *)

Record globals : Type := Globals {
  model : option Obj;
  preprocessor : option Obj;
  RESOURCES_LOADED : bool
}.

Definition initial_globals : globals :=
  {| model := None; preprocessor := None; RESOURCES_LOADED := false |}.

(** *** Observable calls *)

Inductive event : Type :=
  | EvPrint (text : string)
  | EvJoblibLoad (path : string)
  | EvTransform (o : Obj) (df : DataFrame)
  | EvPredict (o : Obj) (X : Mat)
  | EvPredictProba (o : Obj) (X : Mat)
  | EvRenderTemplate (name message : string).

(** *** The monad: globals in, result or exception out, with the globals
    as the computation left them and the calls it made, oldest first. *)

Definition M (A : Type) : Type := globals -> (exn + A) * globals * list event.

Definition ret {A} (a : A) : M A := fun g => (inr a, g, []).

Definition raise {A} (e : exn) : M A := fun g => (inl e, g, []).

Definition bind {A B} (c : M A) (k : A -> M B) : M B :=
  fun g =>
    match c g with
    | (inl e, g1, t1) => (inl e, g1, t1)
    | (inr a, g1, t1) =>
        match k a g1 with
        | (r, g2, t2) => (r, g2, (t1 ++ t2)%list)
        end
    end.

(** [try: body  except <classes>: handler]; what the body did to the
    globals before it raised stays done. *)
Definition try_except {A} (body : M A) (catches : exn -> bool)
    (handler : exn -> M A) : M A :=
  fun g =>
    match body g with
    | (inl e, g1, t1) =>
        if catches e then
          match handler e g1 with
          | (r, g2, t2) => (r, g2, (t1 ++ t2)%list)
          end
        else (inl e, g1, t1)
    | (inr a, g1, t1) => (inr a, g1, t1)
    end.

Definition lift {A} (r : exn + A) : M A := fun g => (r, g, []).

Definition emit (ev : event) : M unit := fun g => (inr tt, g, [ev]).

Definition read {A} (proj : globals -> A) : M A := fun g => (inr (proj g), g, []).

Definition write_model (v : option Obj) : M unit :=
  fun g => (inr tt, {| model := v; preprocessor := preprocessor g;
                       RESOURCES_LOADED := RESOURCES_LOADED g |}, []).

Definition write_preprocessor (v : option Obj) : M unit :=
  fun g => (inr tt, {| model := model g; preprocessor := v;
                       RESOURCES_LOADED := RESOURCES_LOADED g |}, []).

Definition write_RESOURCES_LOADED (b : bool) : M unit :=
  fun g => (inr tt, {| model := model g; preprocessor := preprocessor g;
                       RESOURCES_LOADED := b |}, []).

Notation "'perform' x <- c1 ; c2" := (bind c1 (fun x => c2))
  (at level 10, x name, c1 at level 100, c2 at level 200).

Definition print (text : string) : M unit := emit (EvPrint text).

(** *** Library calls as computations *)

Definition call_joblib_load (path : string) : M (option Obj) :=
  perform _ <- emit (EvJoblibLoad path); lift (joblib_load lib path).

Definition no_attribute {A} (attr : string) : M A :=
  raise (Exn AttributeError
           ("'NoneType' object has no attribute '" ++ attr ++ "'")).

Definition call_transform (p : option Obj) (df : DataFrame) : M Mat :=
  match p with
  | None => no_attribute "transform"
  | Some o => perform _ <- emit (EvTransform o df); lift (transform lib o df)
  end.

Definition call_predict (m : option Obj) (X : Mat) : M (list Lab) :=
  match m with
  | None => no_attribute "predict"
  | Some o => perform _ <- emit (EvPredict o X); lift (predict_labels lib o X)
  end.

Definition call_predict_proba (m : option Obj) (X : Mat) : M (list (list Prob)) :=
  match m with
  | None => no_attribute "predict_proba"
  | Some o => perform _ <- emit (EvPredictProba o X); lift (predict_proba lib o X)
  end.

Definition call_render_template (name message : string) : M string :=
  perform _ <- emit (EvRenderTemplate name message);
  lift (render_template lib name message).

(** [a[0]] on a one-dimensional array *)
Definition index_0 {A} (a : list A) : exn + A :=
  match a !! 0 with
  | Some x => inr x
  | None =>
      inl (Exn IndexError "index 0 is out of bounds for axis 0 with size 0")
  end.

(** [a[0, 1]] on a two-dimensional array *)
Definition index_0_1 {A} (a : list (list A)) : exn + A :=
  match a !! 0 with
  | None =>
      inl (Exn IndexError "index 0 is out of bounds for axis 0 with size 0")
  | Some r =>
      match r !! 1 with
      | Some x => inr x
      | None =>
          inl (Exn IndexError "index 1 is out of bounds for axis 1")
      end
  end.

(** *** [load_resources], lines 20-46 *)

Definition PREPROCESSOR_PATH : string := "preprocessor (1).joblib".
Definition MODEL_PATH : string := "smote_xgboost_model (1).joblib".

Definition nl : string := String "010"%char EmptyString.

Definition load_resources : M unit :=
  try_except
    (perform p <- call_joblib_load PREPROCESSOR_PATH;
     perform _ <- write_preprocessor p;
     perform m <- call_joblib_load MODEL_PATH;
     perform _ <- write_model m;
     perform _ <- write_RESOURCES_LOADED true;
     print (nl ++ "--- Models and Data Loaded Successfully ---" ++ nl))
    is_Exception
    (fun e =>
       perform _ <- write_RESOURCES_LOADED false;
       perform _ <- print (nl ++ "FATAL ERROR: Failed to Load Resources! Details: " ++ exn_str e);
       print (nl ++ "🚨 VERSION CONFLICT: Please re-run your training script (fix_model.py) to save compatible joblib files.")).

(** *** [home], lines 52-239 *)

(** The page the f-string of lines 60-239 denotes; it interpolates
    nothing. *)
Variable dashboard_html : string.

Definition home : M string :=
  perform loaded <- read RESOURCES_LOADED;
  if negb loaded then
    call_render_template "error.html"
      "Server Error: Model failed to load. Please check logs."
  else ret dashboard_html.

(** *** [predict], lines 241-286 *)

(** The request body as [request.get_json(force=True)] decodes it, or the
    exception it raises. *)
Record request : Type := { get_json_force : exn + pyval F }.

Inductive jval : Type :=
  | JInt (z : Z)
  | JFloat (f : F)
  | JStr (s : string).

(** A JSON object body with its status code. *)
Record response : Type := Response {
  body : list (string * jval);
  status : nat
}.

(** [jsonify(d)]; returned alone the status is 200, in a pair the pair's
    second component. *)
Definition jsonify (d : list (string * jval)) (code : nat) : response :=
  {| body := d; status := code |}.

Definition is_None {A} (o : option A) : bool :=
  match o with None => true | Some _ => false end.

Definition not_loaded_response : response :=
  jsonify [("error", JStr "Model resources not fully loaded on server.")] 500.

Definition invalid_amount_response : response :=
  jsonify [("error",
            JStr "Invalid format for Transaction Amount. Must be a number.")] 400.

Definition prediction_error_response (e : exn) : response :=
  jsonify [("error",
            JStr ("An error occurred during prediction: " ++ exn_str e))] 500.

Definition success_response (prediction : Z) (probability : F) : response :=
  jsonify [("prediction", JInt prediction);
           ("probability", JFloat probability)] 200.

(** Lines 255-258: the coercion of the amount under its own [try]. The
    result is either the response of the early [return] or the
    dictionary after the assignment. *)
Definition coerce_amount (data : pyval F) : M (response + pyval F) :=
  try_except
    (perform v <- lift (getitem py data "amount");
     perform f <- lift (py_float py v);
     perform data' <- lift (setitem data "amount" (PFloat f));
     ret (inr data'))
    is_ValueError
    (fun _ => ret (inl invalid_amount_response)).

(** Lines 263-270: the dictionary literal, evaluated top to bottom, and
    the one-row table made of it. *)
Definition build_input_data (data : pyval F) : M DataFrame :=
  perform amount <- lift (getitem py data "amount");
  perform state <- lift (getitem py data "state");
  perform card_type <- lift (getitem py data "card_type");
  perform bank <- lift (getitem py data "bank");
  perform category <- lift (getitem py data "category");
  perform location <- lift (getitem py data "location");
  ret [[("Transaction Amount (INR)", amount);
        ("State", state);
        ("Card Type", card_type);
        ("Bank", bank);
        ("Transaction Category", category);
        ("Merchant Location", location)]].

(** Lines 272-282. *)
Definition transform_and_predict (input_data : DataFrame) : M response :=
  perform p <- read preprocessor;
  perform X_processed <- call_transform p input_data;
  perform m <- read model;
  perform labels <- call_predict m X_processed;
  perform prediction <- lift (index_0 labels);
  perform m' <- read model;
  perform probabilities <- call_predict_proba m' X_processed;
  perform prediction_proba <- lift (index_0_1 probabilities);
  perform i <- lift (int_of_label lib prediction);
  perform f <- lift (float_of_prob lib prediction_proba);
  ret (success_response i f).

(** Lines 252-282: the body of the outer [try]. *)
Definition predict_try (req : request) : M response :=
  perform data <- lift (get_json_force req);
  perform coerced <- coerce_amount data;
  match coerced with
  | inl early => ret early
  | inr data' =>
      perform input_data <- build_input_data data';
      transform_and_predict input_data
  end.

(** Lines 285-286: the blanket handler. *)
Definition predict_except (e : exn) : M response :=
  perform _ <- print ("Prediction Error: " ++ exn_str e);
  ret (prediction_error_response e).

Definition predict (req : request) : M response :=
  perform loaded <- read RESOURCES_LOADED;
  perform m <- read model;
  perform p <- read preprocessor;
  if negb loaded || is_None m || is_None p then
    ret not_loaded_response
  else
    try_except (predict_try req) is_Exception predict_except.

(** *** The server: start-up, then requests one after the other *)

Inductive http_request : Type :=
  | GET_home
  | POST_predict (req : request).

Inductive http_reply : Type :=
  | Page (html : string)
  | Json (r : response)
  (** an exception that left the view function *)
  | Unhandled (e : exn).

Definition handle (r : http_request) : M http_reply :=
  match r with
  | GET_home =>
      try_except (perform html <- home; ret (Page html))
        is_Exception (fun e => ret (Unhandled e))
  | POST_predict req =>
      try_except (perform resp <- predict req; ret (Json resp))
        is_Exception (fun e => ret (Unhandled e))
  end.

Fixpoint serve (rs : list http_request) : M (list http_reply) :=
  match rs with
  | [] => ret []
  | r :: rs' =>
      perform reply <- handle r;
      perform replies <- serve rs';
      ret (reply :: replies)
  end.

(** Running a computation: its result, the globals it leaves, its calls. *)
Definition result_of {A} (c : M A) (g : globals) : exn + A := (c g).1.1.
Definition globals_after {A} (c : M A) (g : globals) : globals := (c g).1.2.
Definition trace_of {A} (c : M A) (g : globals) : list event := (c g).2.

End Service.

Arguments row : clear implicits.
Arguments DataFrame : clear implicits.
Arguments library : clear implicits.
Arguments globals : clear implicits.
Arguments event : clear implicits.
Arguments M : clear implicits.
Arguments request : clear implicits.
Arguments jval : clear implicits.
Arguments response : clear implicits.
Arguments http_request : clear implicits.
Arguments http_reply : clear implicits.

(** ** A small concrete instance

    Amounts and probabilities are counted in hundredths, the two artifacts
    are two constants, and the classifier flags every transaction above
    1000.00 with probability 0.93 and every other with 0.07. It serves to
    run the handlers on concrete requests. *)

Module Demo.

Inductive artifact : Type := ColumnTransformer | Pipeline.

Definition demo_builtins : builtins Z :=
  {| float_of_str := fun s =>
       if decide (s = "1200.50") then Some 120050%Z
       else if decide (s = "99") then Some 9900%Z
       else None;
     float_of_int := fun z =>
       if decide (Z.abs z < 2 ^ 1024)%Z then Some (100 * z)%Z else None;
     repr_str := fun s => "'" ++ s ++ "'" |}.

Definition file_not_found (path : string) : exn :=
  Exn (OtherError "FileNotFoundError")
      ("[Errno 2] No such file or directory: " ++ repr_str demo_builtins path).

(** The cell of the amount column, when it holds a float. *)
Definition amount_of (df : DataFrame Z) : option Z :=
  match df with
  | [(_, PFloat a) :: _] => Some a
  | _ => None
  end.

Definition demo_library : library Z artifact Z Z Z :=
  {| joblib_load := fun path =>
       if decide (path = "preprocessor (1).joblib") then inr (Some ColumnTransformer)
       else if decide (path = "smote_xgboost_model (1).joblib") then inr (Some Pipeline)
       else inl (file_not_found path);
     transform := fun o df =>
       match o, amount_of df with
       | ColumnTransformer, Some a => inr a
       | ColumnTransformer, None =>
           inl (Exn ValueError "could not convert string to float")
       | Pipeline, _ =>
           inl (Exn AttributeError "This 'Pipeline' has no attribute 'transform'")
       end;
     predict_labels := fun o X =>
       match o with
       | Pipeline => inr [if decide (100000 < X)%Z then 1%Z else 0%Z]
       | ColumnTransformer =>
           inl (Exn AttributeError
                  "'ColumnTransformer' object has no attribute 'predict'")
       end;
     predict_proba := fun o X =>
       match o with
       | Pipeline =>
           inr [if decide (100000 < X)%Z then [7%Z; 93%Z] else [93%Z; 7%Z]]
       | ColumnTransformer =>
           inl (Exn AttributeError
                  "'ColumnTransformer' object has no attribute 'predict_proba'")
       end;
     int_of_label := fun l => inr l;
     float_of_prob := fun q => inr q;
     render_template := fun name _ =>
       inl (Exn (OtherError "TemplateNotFound") name) |}.

(** The same, except that the model file holds a pickled [None]. *)
Definition empty_model_library : library Z artifact Z Z Z :=
  {| joblib_load := fun path =>
       if decide (path = "smote_xgboost_model (1).joblib") then inr None
       else joblib_load demo_library path;
     transform := transform demo_library;
     predict_labels := predict_labels demo_library;
     predict_proba := predict_proba demo_library;
     int_of_label := int_of_label demo_library;
     float_of_prob := float_of_prob demo_library;
     render_template := render_template demo_library |}.

Definition loaded_globals : globals artifact :=
  {| model := Some Pipeline;
     preprocessor := Some ColumnTransformer;
     RESOURCES_LOADED := true |}.

(** The fields the form of the home page posts: every one a string. *)
Definition form_fields (amount : string) : gmap string (pyval Z) :=
  list_to_map [("amount", PStr amount); ("state", PStr "Telangana");
               ("card_type", PStr "Rupay"); ("bank", PStr "ICICI Bank");
               ("category", PStr "Transportation");
               ("location", PStr "Bangalore")].

Definition form_request (amount : string) : request Z :=
  {| get_json_force := inr (PDict (form_fields amount)) |}.

Definition form_record (amount : Z) : DataFrame Z :=
  [[("Transaction Amount (INR)", PFloat amount);
    ("State", PStr "Telangana"); ("Card Type", PStr "Rupay");
    ("Bank", PStr "ICICI Bank"); ("Transaction Category", PStr "Transportation");
    ("Merchant Location", PStr "Bangalore")]].

(** A body with nothing but a malformed amount. *)
Definition bad_amount_fields : gmap string (pyval Z) :=
  list_to_map [("amount", PStr "abc")].

Definition bad_amount_only : request Z :=
  {| get_json_force := inr (PDict bad_amount_fields) |}.

(** A well-formed amount and nothing else. *)
Definition amount_fields : gmap string (pyval Z) :=
  list_to_map [("amount", PStr "99")].

Definition amount_only : request Z :=
  {| get_json_force := inr (PDict amount_fields) |}.

(** A body whose amount is JSON [null]. *)
Definition null_amount_fields : gmap string (pyval Z) :=
  <["amount" := PNone]> (form_fields "99").

Definition null_amount : request Z :=
  {| get_json_force := inr (PDict null_amount_fields) |}.

(** The demo library with other files on disk. *)
Definition library_loading (load : string -> exn + option artifact)
    : library Z artifact Z Z Z :=
  {| joblib_load := load;
     transform := transform demo_library;
     predict_labels := predict_labels demo_library;
     predict_proba := predict_proba demo_library;
     int_of_label := int_of_label demo_library;
     float_of_prob := float_of_prob demo_library;
     render_template := render_template demo_library |}.

(** No file at all. *)
Definition no_files_library : library Z artifact Z Z Z :=
  library_loading (fun path => inl (file_not_found path)).

(** The preprocessor file alone. *)
Definition no_model_library : library Z artifact Z Z Z :=
  library_loading (fun path =>
    if decide (path = "preprocessor (1).joblib") then inr (Some ColumnTransformer)
    else inl (file_not_found path)).

(** The demo library with other fitted objects. *)
Definition library_predicting
    (t : artifact -> DataFrame Z -> exn + Z)
    (pl : artifact -> Z -> exn + list Z)
    (pp : artifact -> Z -> exn + list (list Z)) : library Z artifact Z Z Z :=
  {| joblib_load := joblib_load demo_library;
     transform := t;
     predict_labels := pl;
     predict_proba := pp;
     int_of_label := int_of_label demo_library;
     float_of_prob := float_of_prob demo_library;
     render_template := render_template demo_library |}.

Definition unknown_category : exn :=
  Exn ValueError "Found unknown categories ['Telangana'] in column 0 during transform".

(** A preprocessor that knows none of the categories. *)
Definition strict_library : library Z artifact Z Z Z :=
  library_predicting (fun _ _ => inl unknown_category)
    (predict_labels demo_library) (predict_proba demo_library).

Definition not_fitted : exn :=
  Exn (OtherError "NotFittedError") "This Pipeline instance is not fitted yet.".

(** A classifier that was never fitted. *)
Definition unfitted_library : library Z artifact Z Z Z :=
  library_predicting (transform demo_library)
    (fun _ _ => inl not_fitted) (predict_proba demo_library).

(** A classifier that returns no label. *)
Definition silent_library : library Z artifact Z Z Z :=
  library_predicting (transform demo_library)
    (fun _ _ => inr []) (predict_proba demo_library).

(** A classifier fitted on one class: one probability column. *)
Definition one_class_library : library Z artifact Z Z Z :=
  library_predicting (transform demo_library)
    (fun _ _ => inr [0%Z]) (fun _ _ => inr [[100%Z]]).

(** A body that is a JSON list. *)
Definition list_body : request Z :=
  {| get_json_force := inr (PList [PStr "1200.50"; PStr "Telangana"]) |}.

Definition bad_request : exn :=
  Exn (OtherError "BadRequest")
      "400 Bad Request: Failed to decode JSON object".

(** A body that is not JSON. *)
Definition garbled_body : request Z := {| get_json_force := inl bad_request |}.

(** The form's fields with one more. *)
Definition annotated_request : request Z :=
  {| get_json_force := inr (PDict (<["note" := PStr "urgent"]> (form_fields "99"))) |}.

(** The form's fields with the amount as a JSON number. *)
Definition numeric_request : request Z :=
  {| get_json_force := inr (PDict (<["amount" := PInt 99]> (form_fields "99"))) |}.

End Demo.

(** ** Properties *)

Section Properties.

Context {F Obj Mat Lab Prob : Type}.
Context (py : builtins F) (lib : library F Obj Mat Lab Prob).
Context (dashboard_html : string).

Local Abbreviation comp := (M F Obj Mat).

(** A computation that leaves the three globals as it found them, whether
    it returns or raises. *)
Definition read_only {A} (c : comp A) : Prop :=
  forall g, globals_after c g = g.

(** The resources count as loaded when the guard of line 248 lets the
    request through. *)
Definition resources_ready (g : globals Obj) : Prop :=
  RESOURCES_LOADED g = true /\ is_Some (model g) /\ is_Some (preprocessor g).

(** The six keys [predict] reads from the request body. *)
Definition request_keys : list string :=
  ["amount"; "state"; "card_type"; "bank"; "category"; "location"].

(** The dictionary literal of lines 263-270, read off the received
    dictionary [d] and the converted amount [f]. *)
Definition input_row (f : F) (state card_type bank category location : pyval F)
    : row F :=
  [("Transaction Amount (INR)", PFloat f);
   ("State", state);
   ("Card Type", card_type);
   ("Bank", bank);
   ("Transaction Category", category);
   ("Merchant Location", location)].

(** The categorical columns of the record with the request keys they are
    filled from. *)
Definition categorical_columns : list (string * string) :=
  [("State", "state"); ("Card Type", "card_type"); ("Bank", "bank");
   ("Transaction Category", "category"); ("Merchant Location", "location")].

(** The first of the six keys, in the order [predict] reads them, that the
    dictionary does not hold. *)
Definition first_missing_key (d : gmap string (pyval F)) : option string :=
  List.find (fun k => is_None (d !! k)) request_keys.

(** *** Read-only computations *)

Lemma read_only_ret {A} (a : A) : read_only (ret a : comp A).
Proof. intros g. reflexivity. Qed.

Lemma read_only_raise {A} (e : exn) : read_only (raise e : comp A).
Proof. intros g. reflexivity. Qed.

Lemma read_only_lift {A} (r : exn + A) : read_only (lift r : comp A).
Proof. intros g. reflexivity. Qed.

Lemma read_only_emit (ev : event F Obj Mat) : read_only (emit ev).
Proof. intros g. reflexivity. Qed.

Lemma read_only_read {A} (proj : globals Obj -> A) : read_only (read proj : comp A).
Proof. intros g. reflexivity. Qed.

Lemma read_only_bind {A B} (c : comp A) (k : A -> comp B) :
  read_only c -> (forall a, read_only (k a)) -> read_only (bind c k).
Proof.
  intros Hc Hk g. specialize (Hc g).
  unfold globals_after, bind in *.
  destruct (c g) as [[[e | a] g1] t1]; simpl in Hc; subst g1; [reflexivity |].
  specialize (Hk a g). unfold globals_after in Hk.
  destruct (k a g) as [[r g2] t2]. exact Hk.
Qed.

Lemma read_only_try_except {A} (body : comp A) catches (handler : exn -> comp A) :
  read_only body -> (forall e, read_only (handler e)) ->
  read_only (try_except body catches handler).
Proof.
  intros Hb Hh g. specialize (Hb g).
  unfold globals_after, try_except in *.
  destruct (body g) as [[[e | a] g1] t1]; simpl in Hb; subst g1; [| reflexivity].
  destruct (catches e); [| reflexivity].
  specialize (Hh e g). unfold globals_after in Hh.
  destruct (handler e g) as [[r g2] t2]. exact Hh.
Qed.

Create HintDb readonly discriminated.

#[local] Hint Resolve read_only_ret read_only_raise read_only_lift
  read_only_emit read_only_read : readonly.
#[local] Hint Extern 2 (read_only (bind _ _)) =>
  apply read_only_bind; [| intros ?] : readonly.
#[local] Hint Extern 2 (read_only (try_except _ _ _)) =>
  apply read_only_try_except; [| intros ?] : readonly.
#[local] Hint Extern 3 (read_only (match ?x with _ => _ end)) =>
  destruct x : readonly.

Lemma read_only_call_transform p df : read_only (call_transform lib p df).
Proof. unfold call_transform, no_attribute. auto with readonly. Qed.

Lemma read_only_call_predict m X : read_only (call_predict lib m X).
Proof. unfold call_predict, no_attribute. auto with readonly. Qed.

Lemma read_only_call_predict_proba m X : read_only (call_predict_proba lib m X).
Proof. unfold call_predict_proba, no_attribute. auto with readonly. Qed.

Lemma read_only_coerce_amount data : read_only (coerce_amount py data : comp _).
Proof. unfold coerce_amount. auto 10 with readonly. Qed.

Lemma read_only_build_input_data data :
  read_only (build_input_data py data : comp _).
Proof. unfold build_input_data. auto 20 with readonly. Qed.

#[local] Hint Resolve read_only_call_transform read_only_call_predict
  read_only_call_predict_proba read_only_coerce_amount
  read_only_build_input_data : readonly.

Lemma read_only_transform_and_predict df :
  read_only (transform_and_predict lib df).
Proof. unfold transform_and_predict. auto 30 with readonly. Qed.

#[local] Hint Resolve read_only_transform_and_predict : readonly.

Lemma read_only_predict_try req : read_only (predict_try py lib req).
Proof. unfold predict_try. auto 10 with readonly. Qed.

Lemma read_only_predict_except e : read_only (predict_except e : comp _).
Proof. unfold predict_except, print. auto with readonly. Qed.

#[local] Hint Resolve read_only_predict_try read_only_predict_except : readonly.

Lemma read_only_predict req : read_only (predict py lib req).
Proof. unfold predict. auto 10 with readonly. Qed.

Lemma read_only_home : read_only (home lib dashboard_html).
Proof. unfold home, call_render_template. auto 10 with readonly. Qed.

#[local] Hint Resolve read_only_predict read_only_home : readonly.

Lemma read_only_handle r : read_only (handle py lib dashboard_html r).
Proof. destruct r; unfold handle; auto 10 with readonly. Qed.

Lemma read_only_serve rs : read_only (serve py lib dashboard_html rs).
Proof.
  induction rs as [| r rs IH]; simpl.
  - apply read_only_ret.
  - apply read_only_bind; [apply read_only_handle |].
    intros reply. apply read_only_bind; [exact IH |].
    intros replies. apply read_only_ret.
Qed.

(** *** What each block of [predict] computes *)

Lemma getitem_inr (data : pyval F) k v :
  getitem py data k = inr v <-> exists d, data = PDict d /\ d !! k = Some v.
Proof.
  split.
  - destruct data; simpl; try discriminate.
    destruct (d !! k) eqn:E; [| discriminate].
    intros [= <-]. eauto.
  - intros (d & -> & E). simpl. rewrite E. reflexivity.
Qed.

Lemma getitem_not_ValueError (data : pyval F) k e :
  getitem py data k = inl e -> is_ValueError e = false.
Proof.
  destruct data; simpl; try (intros [= <-]; reflexivity).
  destruct (d !! k); [discriminate | intros [= <-]; reflexivity].
Qed.

(** [float] raises [ValueError] on strings alone. *)
Lemma py_float_ValueError (v : pyval F) e :
  py_float py v = inl e -> is_ValueError e = true ->
  exists s, v = PStr s /\ float_of_str py s = None.
Proof.
  destruct v; simpl; try (intros [= <-]; discriminate).
  - destruct (float_of_int py _); [discriminate | intros [= <-]; discriminate].
  - destruct (float_of_int py z); [discriminate | intros [= <-]; discriminate].
  - destruct (float_of_str py s) eqn:E; [discriminate |]. eauto.
Qed.

Lemma coerce_amount_missing (data : pyval F) e (g : globals Obj) :
  getitem py data "amount" = inl e ->
  (coerce_amount py data : comp _) g = (inl e, g, []).
Proof.
  intros E. unfold coerce_amount, try_except, bind, lift. rewrite E.
  rewrite (getitem_not_ValueError _ _ _ E). reflexivity.
Qed.

Lemma coerce_amount_raises (data : pyval F) v e (g : globals Obj) :
  getitem py data "amount" = inr v -> py_float py v = inl e ->
  (coerce_amount py data : comp _) g =
    if is_ValueError e then (inr (inl invalid_amount_response), g, [])
    else (inl e, g, []).
Proof.
  intros E1 E2. unfold coerce_amount, try_except, bind, lift, ret.
  rewrite E1, E2. destruct (is_ValueError e); reflexivity.
Qed.

Lemma coerce_amount_converts d v f (g : globals Obj) :
  d !! "amount" = Some v -> py_float py v = inr f ->
  (coerce_amount py (PDict d) : comp _) g =
    (inr (inr (PDict (<["amount" := PFloat f]> d))), g, []).
Proof.
  intros E1 E2. unfold coerce_amount, try_except, bind, lift, ret. simpl.
  rewrite E1, E2. reflexivity.
Qed.

Lemma build_input_data_run d f (g : globals Obj) :
  (build_input_data py (PDict (<["amount" := PFloat f]> d)) : comp _) g =
    match d !! "state" with
    | None => (inl (Exn KeyError (repr_str py "state")), g, [])
    | Some s =>
    match d !! "card_type" with
    | None => (inl (Exn KeyError (repr_str py "card_type")), g, [])
    | Some c =>
    match d !! "bank" with
    | None => (inl (Exn KeyError (repr_str py "bank")), g, [])
    | Some b =>
    match d !! "category" with
    | None => (inl (Exn KeyError (repr_str py "category")), g, [])
    | Some t =>
    match d !! "location" with
    | None => (inl (Exn KeyError (repr_str py "location")), g, [])
    | Some l => (inr [input_row f s c b t l], g, [])
    end end end end end.
Proof.
  unfold build_input_data, bind, lift, ret. simpl.
  rewrite lookup_insert_eq.
  rewrite !lookup_insert_ne by discriminate.
  destruct (d !! "state"); [| reflexivity].
  destruct (d !! "card_type"); [| reflexivity].
  destruct (d !! "bank"); [| reflexivity].
  destruct (d !! "category"); [| reflexivity].
  destruct (d !! "location"); reflexivity.
Qed.

Lemma transform_and_predict_run df m p (g : globals Obj) :
  model g = Some m -> preprocessor g = Some p ->
  transform_and_predict lib df g =
    match transform lib p df with
    | inl e => (inl e, g, [EvTransform p df])
    | inr X =>
    match predict_labels lib m X with
    | inl e => (inl e, g, [EvTransform p df; EvPredict m X])
    | inr labels =>
    match index_0 labels with
    | inl e => (inl e, g, [EvTransform p df; EvPredict m X])
    | inr l =>
    match predict_proba lib m X with
    | inl e =>
        (inl e, g, [EvTransform p df; EvPredict m X; EvPredictProba m X])
    | inr probabilities =>
    match index_0_1 probabilities with
    | inl e =>
        (inl e, g, [EvTransform p df; EvPredict m X; EvPredictProba m X])
    | inr q =>
    match int_of_label lib l with
    | inl e =>
        (inl e, g, [EvTransform p df; EvPredict m X; EvPredictProba m X])
    | inr i =>
    match float_of_prob lib q with
    | inl e =>
        (inl e, g, [EvTransform p df; EvPredict m X; EvPredictProba m X])
    | inr f =>
        (inr (success_response i f), g,
         [EvTransform p df; EvPredict m X; EvPredictProba m X])
    end end end end end end end.
Proof.
  intros Hm Hp. destruct g as [gm gp gl]. simpl in Hm, Hp. subst gm gp.
  unfold transform_and_predict, call_transform, call_predict,
    call_predict_proba, bind, read, emit, lift, ret. simpl.
  destruct (transform lib p df) as [e | X]; [reflexivity |].
  destruct (predict_labels lib m X) as [e | labels]; [reflexivity |].
  destruct (index_0 labels) as [e | l]; [reflexivity |].
  destruct (predict_proba lib m X) as [e | probabilities]; [reflexivity |].
  destruct (index_0_1 probabilities) as [e | q]; [reflexivity |].
  destruct (int_of_label lib l) as [e | i]; [reflexivity |].
  destruct (float_of_prob lib q) as [e | f]; reflexivity.
Qed.

Lemma resources_ready_dec (g : globals Obj) :
  {resources_ready g} + {~ resources_ready g}.
Proof.
  unfold resources_ready.
  destruct (RESOURCES_LOADED g); [| right; intros [? _]; discriminate].
  destruct (model g); [| right; intros (_ & [? ?] & _); discriminate].
  destruct (preprocessor g); [| right; intros (_ & _ & [? ?]); discriminate].
  left. eauto.
Qed.

Lemma not_ready_cases (g : globals Obj) :
  ~ resources_ready g <->
  RESOURCES_LOADED g = false \/ model g = None \/ preprocessor g = None.
Proof.
  unfold resources_ready.
  destruct (RESOURCES_LOADED g), (model g), (preprocessor g);
    split; intros H; try tauto; try (intros (? & [? ?] & [? ?]); discriminate);
    try (destruct H as [H | [H | H]]; discriminate);
    try (exfalso; apply H; eauto).
Qed.

Lemma predict_not_ready req (g : globals Obj) :
  ~ resources_ready g ->
  predict py lib req g = (inr not_loaded_response, g, []).
Proof.
  intros H. apply not_ready_cases in H.
  unfold predict, bind, read, ret. cbn beta iota.
  destruct H as [H | [H | H]]; rewrite H; simpl.
  - reflexivity.
  - rewrite orb_true_r. reflexivity.
  - rewrite orb_true_r. reflexivity.
Qed.

Lemma predict_ready req (g : globals Obj) :
  resources_ready g ->
  predict py lib req g =
    try_except (predict_try py lib req) is_Exception predict_except g.
Proof.
  intros (Hl & [m Hm] & [p Hp]).
  unfold predict, bind, read. cbn beta iota. rewrite Hl, Hm, Hp. simpl.
  destruct (try_except _ _ _ g) as [[r g2] t2]. reflexivity.
Qed.

(** An exception inside the outer [try] ends in the blanket handler. *)
Lemma blanket_catches (body : comp (response F)) e (g g1 : globals Obj) t :
  body g = (inl e, g1, t) ->
  try_except body is_Exception predict_except g =
    (inr (prediction_error_response e), g1,
     (t ++ [EvPrint ("Prediction Error: " ++ exn_str e)])%list).
Proof. intros E. unfold try_except. rewrite E. reflexivity. Qed.

Lemma blanket_passes (body : comp (response F)) resp (g g1 : globals Obj) t :
  body g = (inr resp, g1, t) ->
  try_except body is_Exception predict_except g = (inr resp, g1, t).
Proof. intros E. unfold try_except. rewrite E. reflexivity. Qed.

Lemma predict_try_no_json req e (g : globals Obj) :
  get_json_force req = inl e ->
  predict_try py lib req g = (inl e, g, []).
Proof. intros E. unfold predict_try, bind, lift. rewrite E. reflexivity. Qed.

Lemma predict_try_amount_missing req data e (g : globals Obj) :
  get_json_force req = inr data ->
  getitem py data "amount" = inl e ->
  predict_try py lib req g = (inl e, g, []).
Proof.
  intros E1 E2. unfold predict_try, bind, lift. rewrite E1.
  rewrite (coerce_amount_missing _ _ _ E2). reflexivity.
Qed.

Lemma predict_try_amount_rejected req data v e (g : globals Obj) :
  get_json_force req = inr data ->
  getitem py data "amount" = inr v ->
  py_float py v = inl e ->
  predict_try py lib req g =
    if is_ValueError e then (inr invalid_amount_response, g, [])
    else (inl e, g, []).
Proof.
  intros E1 E2 E3. unfold predict_try, bind, lift. rewrite E1.
  rewrite (coerce_amount_raises _ _ _ _ E2 E3).
  destruct (is_ValueError e); reflexivity.
Qed.

Lemma predict_try_amount_converted req d v f (g : globals Obj) :
  get_json_force req = inr (PDict d) ->
  d !! "amount" = Some v ->
  py_float py v = inr f ->
  predict_try py lib req g =
    bind (build_input_data py (PDict (<["amount" := PFloat f]> d)))
         (transform_and_predict lib) g.
Proof.
  intros E1 E2 E3. unfold predict_try at 1. unfold bind at 1 2. unfold lift.
  rewrite E1. rewrite (coerce_amount_converts _ _ _ _ E2 E3). simpl.
  destruct (bind _ _ g) as [[r g2] t2]. reflexivity.
Qed.

(** With every key present, the request reaches the library calls. *)
Lemma predict_try_record req d v f s c b t l m p (g : globals Obj) :
  model g = Some m -> preprocessor g = Some p ->
  get_json_force req = inr (PDict d) ->
  d !! "amount" = Some v ->
  py_float py v = inr f ->
  d !! "state" = Some s -> d !! "card_type" = Some c ->
  d !! "bank" = Some b -> d !! "category" = Some t ->
  d !! "location" = Some l ->
  predict_try py lib req g =
    transform_and_predict lib [input_row f s c b t l] g.
Proof.
  intros Hm Hp E1 E2 E3 Es Ec Eb Et El.
  rewrite (predict_try_amount_converted _ _ _ _ _ E1 E2 E3).
  unfold bind. rewrite build_input_data_run, Es, Ec, Eb, Et, El.
  destruct (transform_and_predict lib _ g) as [[r g2] t2]. reflexivity.
Qed.

(** A missing categorical key, once the amount is converted, raises
    [KeyError] before any library is called. *)
Lemma predict_try_key_missing req d v f k (g : globals Obj) :
  get_json_force req = inr (PDict d) ->
  d !! "amount" = Some v ->
  py_float py v = inr f ->
  k ∈ ["state"; "card_type"; "bank"; "category"; "location"] ->
  d !! k = None ->
  exists k', predict_try py lib req g =
    (inl (Exn KeyError (repr_str py k')), g, []).
Proof.
  intros E1 E2 E3 Hk Ek.
  rewrite (predict_try_amount_converted _ _ _ _ _ E1 E2 E3).
  unfold bind. rewrite build_input_data_run.
  destruct (d !! "state") eqn:Es; [| eauto].
  destruct (d !! "card_type") eqn:Ec; [| eauto].
  destruct (d !! "bank") eqn:Eb; [| eauto].
  destruct (d !! "category") eqn:Et; [| eauto].
  destruct (d !! "location") eqn:El; [| eauto].
  exfalso. repeat (apply elem_of_cons in Hk as [-> | Hk]; [congruence |]).
  inversion Hk.
Qed.

Lemma is_ValueError_cls e : is_ValueError e = true <-> exn_cls e = ValueError.
Proof. unfold is_ValueError. destruct (exn_cls e); split; congruence. Qed.

(** *** The null-resource guard *)

(** C3: a [/predict] request received while [RESOURCES_LOADED] is false, or
    [model] is [None], or [preprocessor] is [None], is answered with status
    500 and the body [{'error': 'Model resources not fully loaded on
    server.'}]; the handler makes no call at all, so neither [transform]
    nor [predict] nor [predict_proba] is invoked. *)
Theorem predict_refuses_when_not_loaded req (g : globals Obj) :
  RESOURCES_LOADED g = false \/ model g = None \/ preprocessor g = None ->
  result_of (predict py lib req) g =
    inr {| body := [("error", JStr "Model resources not fully loaded on server.")];
           status := 500 |}
  /\ trace_of (predict py lib req) g = []
  /\ (forall o df, EvTransform o df ∉ trace_of (predict py lib req) g)
  /\ (forall o X, EvPredict o X ∉ trace_of (predict py lib req) g)
  /\ (forall o X, EvPredictProba o X ∉ trace_of (predict py lib req) g).
Proof.
  intros H. apply not_ready_cases in H.
  unfold result_of, trace_of. rewrite (predict_not_ready _ _ H). simpl.
  repeat split; intros; apply not_elem_of_nil.
Qed.

(** *** The handlers leave the globals alone *)

(** C10: neither [predict] nor [home] modifies the server state: after any
    request, answered or failed, [model], [preprocessor] and
    [RESOURCES_LOADED] hold the values they held before it. *)
Theorem handlers_preserve_globals req (g : globals Obj) :
  (model (globals_after (predict py lib req) g) = model g
   /\ preprocessor (globals_after (predict py lib req) g) = preprocessor g
   /\ RESOURCES_LOADED (globals_after (predict py lib req) g) = RESOURCES_LOADED g)
  /\ (model (globals_after (home lib dashboard_html) g) = model g
      /\ preprocessor (globals_after (home lib dashboard_html) g) = preprocessor g
      /\ RESOURCES_LOADED (globals_after (home lib dashboard_html) g)
         = RESOURCES_LOADED g).
Proof.
  rewrite (read_only_predict req g), (read_only_home g). repeat split.
Qed.

(** *** The control paths of [predict] *)

Lemma predict_try_returns req resp (g g1 : globals Obj) t :
  resources_ready g ->
  predict_try py lib req g = (inr resp, g1, t) ->
  (resp = invalid_amount_response
   /\ exists data v e,
       get_json_force req = inr data
       /\ getitem py data "amount" = inr v
       /\ py_float py v = inl e
       /\ exn_cls e = ValueError)
  \/ exists i f, resp = success_response i f.
Proof.
  intros (_ & [m Hm] & [p Hp]) E.
  destruct (get_json_force req) as [e | data] eqn:E1.
  { rewrite (predict_try_no_json _ _ _ E1) in E. discriminate. }
  destruct (getitem py data "amount") as [e | v] eqn:E2.
  { rewrite (predict_try_amount_missing _ _ _ _ E1 E2) in E. discriminate. }
  destruct (py_float py v) as [e | f] eqn:E3.
  { rewrite (predict_try_amount_rejected _ _ _ _ _ E1 E2 E3) in E.
    destruct (is_ValueError e) eqn:Ev; [| discriminate].
    apply is_ValueError_cls in Ev.
    left. split; [congruence | eauto 10]. }
  apply getitem_inr in E2 as (d & -> & E2).
  rewrite (predict_try_amount_converted _ _ _ _ _ E1 E2 E3) in E.
  unfold bind in E. rewrite build_input_data_run in E.
  destruct (d !! "state"); [| discriminate].
  destruct (d !! "card_type"); [| discriminate].
  destruct (d !! "bank"); [| discriminate].
  destruct (d !! "category"); [| discriminate].
  destruct (d !! "location"); [| discriminate].
  rewrite (transform_and_predict_run _ m p g Hm Hp) in E.
  destruct (transform lib p _) as [e | X]; [discriminate |].
  destruct (predict_labels lib m X) as [e | labels]; [discriminate |].
  destruct (index_0 labels) as [e | l]; [discriminate |].
  destruct (predict_proba lib m X) as [e | probabilities]; [discriminate |].
  destruct (index_0_1 probabilities) as [e | q]; [discriminate |].
  destruct (int_of_label lib l) as [e | i]; [discriminate |].
  destruct (float_of_prob lib q) as [e | f']; [discriminate |].
  right. exists i, f'. simpl in E. congruence.
Qed.

(** C5: [predict] has four ways out and no other: the null-resource
    response (exactly when the guard of line 248 fires), and, past that
    guard, the 400 response of the coercion guard, the success JSON, or the
    500 response built by the blanket handler from the exception it caught.
    The handler always returns a response; no exception leaves it. *)
Theorem predict_outcomes req (g : globals Obj) :
  exists resp,
    result_of (predict py lib req) g = inr resp
    /\ ((~ resources_ready g /\ resp = not_loaded_response)
        \/ (resources_ready g
            /\ (resp = invalid_amount_response
                \/ (exists i f, resp = success_response i f)
                \/ (exists e, resp = prediction_error_response e)))).
Proof.
  unfold result_of.
  destruct (resources_ready_dec g) as [Hr | Hn].
  - rewrite (predict_ready _ _ Hr).
    destruct (predict_try py lib req g) as [[[e | resp] g1] t] eqn:E.
    + rewrite (blanket_catches _ _ _ _ _ E). simpl. eauto 10.
    + rewrite (blanket_passes _ _ _ _ _ E). simpl.
      exists resp. split; [reflexivity |]. right. split; [exact Hr |].
      destruct (predict_try_returns _ _ _ _ _ Hr E) as [[-> _] | ?]; auto.
  - rewrite (predict_not_ready _ _ Hn). simpl. eauto.
Qed.

(** *** The record handed to the preprocessor *)

Ltac elem_of_cases H :=
  repeat (apply elem_of_cons in H as [H | H]; [try discriminate |]);
  try (apply elem_of_nil in H; contradiction).

Lemma transform_and_predict_trace df m p (g : globals Obj) :
  model g = Some m -> preprocessor g = Some p ->
  exists rest,
    trace_of (transform_and_predict lib df) g = EvTransform p df :: rest
    /\ forall o df', EvTransform o df' ∉ rest.
Proof.
  intros Hm Hp. unfold trace_of.
  rewrite (transform_and_predict_run _ m p g Hm Hp).
  destruct (transform lib p df) as [e | X].
  { eexists. split; [reflexivity |]. intros o df' H. elem_of_cases H. }
  destruct (predict_labels lib m X) as [e | labels].
  { eexists. split; [reflexivity |]. intros o df' H. elem_of_cases H. }
  destruct (index_0 labels) as [e | l].
  { eexists. split; [reflexivity |]. intros o df' H. elem_of_cases H. }
  destruct (predict_proba lib m X) as [e | probabilities].
  { eexists. split; [reflexivity |]. intros o df' H. elem_of_cases H. }
  destruct (index_0_1 probabilities) as [e | q].
  { eexists. split; [reflexivity |]. intros o df' H. elem_of_cases H. }
  destruct (int_of_label lib l) as [e | i].
  { eexists. split; [reflexivity |]. intros o df' H. elem_of_cases H. }
  destruct (float_of_prob lib q) as [e | f];
    (eexists; split; [reflexivity |]; intros o df' H; elem_of_cases H).
Qed.

(** What ran inside the outer [try] is all the handler adds to the trace,
    up to the line the blanket handler prints. *)
Lemma predict_trace_ready req (g : globals Obj) :
  resources_ready g ->
  forall o df,
    EvTransform o df ∈ trace_of (predict py lib req) g <->
    EvTransform o df ∈ trace_of (predict_try py lib req) g.
Proof.
  intros Hr o df. unfold trace_of. rewrite (predict_ready _ _ Hr).
  destruct (predict_try py lib req g) as [[[e | resp] g1] t] eqn:E.
  - rewrite (blanket_catches _ _ _ _ _ E). simpl.
    rewrite elem_of_app. split; [| auto].
    intros [H | H]; [exact H | elem_of_cases H].
  - rewrite (blanket_passes _ _ _ _ _ E). reflexivity.
Qed.

(** Whatever reaches [transform] is the one-row table of lines 263-270,
    and it reaches the object the global [preprocessor] holds. *)
Lemma transform_called req o df (g : globals Obj) :
  EvTransform o df ∈ trace_of (predict py lib req) g ->
  resources_ready g /\ preprocessor g = Some o
  /\ exists d v f s c b t l,
      get_json_force req = inr (PDict d)
      /\ d !! "amount" = Some v /\ py_float py v = inr f
      /\ d !! "state" = Some s /\ d !! "card_type" = Some c
      /\ d !! "bank" = Some b /\ d !! "category" = Some t
      /\ d !! "location" = Some l
      /\ df = [input_row f s c b t l].
Proof.
  intros H.
  destruct (resources_ready_dec g) as [Hr | Hn].
  2:{ unfold trace_of in H. rewrite (predict_not_ready _ _ Hn) in H.
      elem_of_cases H. }
  apply (predict_trace_ready _ _ Hr) in H. unfold trace_of in H.
  pose proof Hr as (_ & [m Hm] & [p Hp]).
  destruct (get_json_force req) as [e | data] eqn:E1.
  { rewrite (predict_try_no_json _ _ _ E1) in H. elem_of_cases H. }
  destruct (getitem py data "amount") as [e | v] eqn:E2.
  { rewrite (predict_try_amount_missing _ _ _ _ E1 E2) in H. elem_of_cases H. }
  destruct (py_float py v) as [e | f] eqn:E3.
  { rewrite (predict_try_amount_rejected _ _ _ _ _ E1 E2 E3) in H.
    destruct (is_ValueError e); elem_of_cases H. }
  apply getitem_inr in E2 as (d & -> & E2).
  destruct (d !! "state") as [s |] eqn:Es.
  2:{ destruct (predict_try_key_missing req d v f "state" g E1 E2 E3)
        as [k' E]; [set_solver | exact Es |].
      rewrite E in H. elem_of_cases H. }
  destruct (d !! "card_type") as [c |] eqn:Ec.
  2:{ destruct (predict_try_key_missing req d v f "card_type" g E1 E2 E3)
        as [k' E]; [set_solver | exact Ec |].
      rewrite E in H. elem_of_cases H. }
  destruct (d !! "bank") as [b |] eqn:Eb.
  2:{ destruct (predict_try_key_missing req d v f "bank" g E1 E2 E3)
        as [k' E]; [set_solver | exact Eb |].
      rewrite E in H. elem_of_cases H. }
  destruct (d !! "category") as [t |] eqn:Et.
  2:{ destruct (predict_try_key_missing req d v f "category" g E1 E2 E3)
        as [k' E]; [set_solver | exact Et |].
      rewrite E in H. elem_of_cases H. }
  destruct (d !! "location") as [l |] eqn:El.
  2:{ destruct (predict_try_key_missing req d v f "location" g E1 E2 E3)
        as [k' E]; [set_solver | exact El |].
      rewrite E in H. elem_of_cases H. }
  rewrite (predict_try_record req d v f s c b t l m p g
             Hm Hp E1 E2 E3 Es Ec Eb Et El) in H.
  destruct (transform_and_predict_trace [input_row f s c b t l] m p g Hm Hp)
    as (rest & Etr & Hrest).
  unfold trace_of in Etr. rewrite Etr in H.
  apply elem_of_cons in H as [H | H]; [| exfalso; exact (Hrest _ _ H)].
  injection H as -> ->.
  split; [exact Hr |]. split; [exact Hp |].
  exists d, v, f, s, c, b, t, l. repeat split; assumption.
Qed.

(** A request that passes both guards and carries the five other keys
    does reach [transform], once. *)
Lemma transform_call_made req d v f s c b t l m p (g : globals Obj) :
  RESOURCES_LOADED g = true ->
  model g = Some m -> preprocessor g = Some p ->
  get_json_force req = inr (PDict d) ->
  d !! "amount" = Some v -> py_float py v = inr f ->
  d !! "state" = Some s -> d !! "card_type" = Some c ->
  d !! "bank" = Some b -> d !! "category" = Some t ->
  d !! "location" = Some l ->
  exists rest,
    trace_of (predict py lib req) g
      = EvTransform p [input_row f s c b t l] :: rest
    /\ forall o df', EvTransform o df' ∉ rest.
Proof.
  intros Hl Hm Hp E1 E2 E3 Es Ec Eb Et El.
  assert (Hr : resources_ready g) by (unfold resources_ready; eauto).
  destruct (transform_and_predict_trace [input_row f s c b t l] m p g Hm Hp)
    as (rest & Etr & Hrest).
  unfold trace_of in *. rewrite (predict_ready _ _ Hr).
  pose proof (predict_try_record req d v f s c b t l m p g
                Hm Hp E1 E2 E3 Es Ec Eb Et El) as E.
  destruct (transform_and_predict lib [input_row f s c b t l] g)
    as [[[e | resp] g1] tr] eqn:Ett; simpl in Etr; subst tr.
  - rewrite (blanket_catches _ _ _ _ _ E). simpl.
    eexists. split; [reflexivity |].
    intros o df' H. apply elem_of_app in H as [H | H].
    + exact (Hrest _ _ H).
    + elem_of_cases H.
  - rewrite (blanket_passes _ _ _ _ _ E). simpl. eauto.
Qed.

(** C2: for a request that passes both guards (the resources are loaded
    and [float(data['amount'])] succeeds), whatever is handed to the
    preprocessor is a table of one row with exactly the six columns
    'Transaction Amount (INR)', 'State', 'Card Type', 'Bank', 'Transaction
    Category', 'Merchant Location', in that order, filled from the request
    keys 'amount' (converted), 'state', 'card_type', 'bank', 'category' and
    'location'; and when those five keys are present the table is handed
    over, to the object the global [preprocessor] holds, exactly once. *)
Theorem input_record_schema req d v f (g : globals Obj) :
  resources_ready g ->
  get_json_force req = inr (PDict d) ->
  d !! "amount" = Some v ->
  py_float py v = inr f ->
  (forall o df,
     EvTransform o df ∈ trace_of (predict py lib req) g ->
     preprocessor g = Some o
     /\ exists s c b t l,
         d !! "state" = Some s /\ d !! "card_type" = Some c
         /\ d !! "bank" = Some b /\ d !! "category" = Some t
         /\ d !! "location" = Some l
         /\ df = [[("Transaction Amount (INR)", PFloat f);
                   ("State", s);
                   ("Card Type", c);
                   ("Bank", b);
                   ("Transaction Category", t);
                   ("Merchant Location", l)]])
  /\ (forall s c b t l,
        d !! "state" = Some s -> d !! "card_type" = Some c ->
        d !! "bank" = Some b -> d !! "category" = Some t ->
        d !! "location" = Some l ->
        exists p rest,
          preprocessor g = Some p
          /\ trace_of (predict py lib req) g =
               EvTransform p [[("Transaction Amount (INR)", PFloat f);
                               ("State", s);
                               ("Card Type", c);
                               ("Bank", b);
                               ("Transaction Category", t);
                               ("Merchant Location", l)]] :: rest
          /\ forall o df, EvTransform o df ∉ rest).
Proof.
  intros Hr E1 E2 E3. split.
  - intros o df H.
    destruct (transform_called _ _ _ _ H)
      as (_ & Hp & d' & v' & f' & s & c & b & t & l
          & E1' & E2' & E3' & Es & Ec & Eb & Et & El & ->).
    assert (d' = d) as -> by congruence.
    assert (v' = v) as -> by congruence.
    assert (f' = f) as -> by congruence.
    split; [exact Hp |]. exists s, c, b, t, l. repeat split; assumption.
  - intros s c b t l Es Ec Eb Et El.
    destruct Hr as (Hl & [m Hm] & [p Hp]).
    destruct (transform_call_made req d v f s c b t l m p g
                Hl Hm Hp E1 E2 E3 Es Ec Eb Et El) as (rest & Etr & Hrest).
    exists p, rest. repeat split; assumption.
Qed.

(** C7: only the amount is coerced. For a request that passes both guards,
    the assignment of line 256 leaves every other key of the dictionary
    alone, and each of the five categorical columns of the record handed to
    the preprocessor holds, once, the very value received under its key
    ('state', 'card_type', 'bank', 'category', 'location'). The record is
    handed over: with the five keys present, the first call of the handler
    is [transform] on the row that carries the five received values,
    unchanged, after the converted amount. *)
Theorem categorical_fields_unchanged req d v f (g : globals Obj) :
  resources_ready g ->
  get_json_force req = inr (PDict d) ->
  d !! "amount" = Some v ->
  py_float py v = inr f ->
  (exists d',
     result_of (coerce_amount py (PDict d) : comp _) g = inr (inr (PDict d'))
     /\ forall k, k <> "amount" -> d' !! k = d !! k)
  /\ (forall o df column key,
        EvTransform o df ∈ trace_of (predict py lib req) g ->
        (column, key) ∈ categorical_columns ->
        exists r received,
          df = [r]
          /\ d !! key = Some received
          /\ (column, received) ∈ r
          /\ forall cell, (column, cell) ∈ r -> cell = received)
  /\ (forall s c b t l,
        d !! "state" = Some s -> d !! "card_type" = Some c ->
        d !! "bank" = Some b -> d !! "category" = Some t ->
        d !! "location" = Some l ->
        exists p rest,
          preprocessor g = Some p
          /\ trace_of (predict py lib req) g =
               EvTransform p [[("Transaction Amount (INR)", PFloat f);
                               ("State", s);
                               ("Card Type", c);
                               ("Bank", b);
                               ("Transaction Category", t);
                               ("Merchant Location", l)]] :: rest
          /\ forall o df, EvTransform o df ∉ rest).
Proof.
  intros Hr E1 E2 E3. split; [| split].
  - exists (<["amount" := PFloat f]> d). unfold result_of.
    rewrite (coerce_amount_converts _ _ _ _ E2 E3). split; [reflexivity |].
    intros k Hk. apply lookup_insert_ne. congruence.
  - intros o df column key H Hc.
    destruct (transform_called _ _ _ _ H)
      as (_ & Hp & d' & v' & f' & s & c & b & t & l
          & E1' & E2' & E3' & Es & Ec & Eb & Et & El & ->).
    assert (d' = d) as -> by congruence.
    exists (input_row f' s c b t l).
    unfold categorical_columns in Hc.
    repeat (apply elem_of_cons in Hc as [Hc | Hc];
            [injection Hc as -> ->;
             eexists; split; [reflexivity |]; split; [eassumption |];
             split; [unfold input_row; set_solver |];
             intros cell Hcell; unfold input_row in Hcell;
             elem_of_cases Hcell; congruence |]).
    apply elem_of_nil in Hc. contradiction.
  - intros s c b t l Es Ec Eb Et El.
    destruct Hr as (Hl & [m Hm] & [p Hp]).
    destruct (transform_call_made req d v f s c b t l m p g
                Hl Hm Hp E1 E2 E3 Es Ec Eb Et El) as (rest & Etr & Hrest).
    exists p, rest. repeat split; assumption.
Qed.

(** *** The coercion guard *)

Lemma predict_amount_rejected req data v e (g : globals Obj) :
  resources_ready g ->
  get_json_force req = inr data ->
  getitem py data "amount" = inr v ->
  py_float py v = inl e ->
  result_of (predict py lib req) g =
    inr (if is_ValueError e then invalid_amount_response
         else prediction_error_response e).
Proof.
  intros Hr E1 E2 E3. unfold result_of. rewrite (predict_ready _ _ Hr).
  pose proof (predict_try_amount_rejected req data v e g E1 E2 E3) as E.
  destruct (is_ValueError e).
  - rewrite (blanket_passes _ _ _ _ _ E). reflexivity.
  - rewrite (blanket_catches _ _ _ _ _ E). reflexivity.
Qed.

(** Past the first guard, status 400 means [float] raised [ValueError]. *)
Lemma status_400_inv req resp (g : globals Obj) :
  resources_ready g ->
  result_of (predict py lib req) g = inr resp ->
  status resp = 400 ->
  resp = invalid_amount_response
  /\ exists data v e,
      get_json_force req = inr data
      /\ getitem py data "amount" = inr v
      /\ py_float py v = inl e
      /\ exn_cls e = ValueError.
Proof.
  intros Hr E Hs. unfold result_of in E. rewrite (predict_ready _ _ Hr) in E.
  destruct (predict_try py lib req g) as [[[e | resp'] g1] t] eqn:Et.
  { rewrite (blanket_catches _ _ _ _ _ Et) in E. simpl in E.
    injection E as <-. discriminate. }
  rewrite (blanket_passes _ _ _ _ _ Et) in E. simpl in E. injection E as ->.
  destruct (predict_try_returns _ _ _ _ _ Hr Et) as [[-> Hv] | (i & f & ->)];
    [| discriminate].
  split; [reflexivity | exact Hv].
Qed.

(** C4: with the resources loaded, [predict] answers with status 400 and
    the body [{'error': 'Invalid format for Transaction Amount. Must be a
    number.'}] if and only if [float(data['amount'])] raises [ValueError];
    no other response carries status 400; and when the conversion succeeds
    it is the converted float, not the value received, that sits in the
    'Transaction Amount (INR)' column of the record handed to the
    preprocessor. The record is handed over: when the conversion succeeds
    and the five other keys are present, the first call of the handler is
    [transform] on the row whose first cell is that float. *)
Theorem amount_coercion_guard req (g : globals Obj) :
  resources_ready g ->
  (result_of (predict py lib req) g =
     inr {| body := [("error",
                      JStr "Invalid format for Transaction Amount. Must be a number.")];
            status := 400 |}
   <-> exists data v e,
         get_json_force req = inr data
         /\ getitem py data "amount" = inr v
         /\ py_float py v = inl e
         /\ exn_cls e = ValueError)
  /\ (forall resp,
        result_of (predict py lib req) g = inr resp ->
        status resp = 400 ->
        resp = invalid_amount_response)
  /\ (forall data v f o df,
        get_json_force req = inr data ->
        getitem py data "amount" = inr v ->
        py_float py v = inr f ->
        EvTransform o df ∈ trace_of (predict py lib req) g ->
        exists cells,
          df = [("Transaction Amount (INR)", PFloat f) :: cells]
          /\ forall cell, ("Transaction Amount (INR)", cell) ∈ cells -> False)
  /\ (forall data v f s c b t l,
        get_json_force req = inr data ->
        getitem py data "amount" = inr v ->
        py_float py v = inr f ->
        getitem py data "state" = inr s ->
        getitem py data "card_type" = inr c ->
        getitem py data "bank" = inr b ->
        getitem py data "category" = inr t ->
        getitem py data "location" = inr l ->
        exists p rest,
          preprocessor g = Some p
          /\ trace_of (predict py lib req) g =
               EvTransform p [[("Transaction Amount (INR)", PFloat f);
                               ("State", s);
                               ("Card Type", c);
                               ("Bank", b);
                               ("Transaction Category", t);
                               ("Merchant Location", l)]] :: rest
          /\ forall o df, EvTransform o df ∉ rest).
Proof.
  intros Hr. split; [split | split; [| split]].
  - intros E. exact (proj2 (status_400_inv _ _ _ Hr E eq_refl)).
  - intros (data & v & e & E1 & E2 & E3 & Ev).
    rewrite (predict_amount_rejected _ _ _ _ _ Hr E1 E2 E3).
    apply is_ValueError_cls in Ev. rewrite Ev. reflexivity.
  - intros resp E Hs. exact (proj1 (status_400_inv _ _ _ Hr E Hs)).
  - intros data v f o df E1 E2 E3 H.
    destruct (transform_called _ _ _ _ H)
      as (_ & _ & d' & v' & f' & s & c & b & t & l
          & E1' & E2' & E3' & _ & _ & _ & _ & _ & ->).
    assert (data = PDict d') as -> by congruence.
    simpl in E2. rewrite E2' in E2. injection E2 as <-.
    assert (f' = f) as -> by congruence.
    eexists. split; [reflexivity |].
    intros cell Hcell. elem_of_cases Hcell.
  - intros data v f s c b t l E1 E2 E3 Es Ec Eb Et El.
    apply getitem_inr in E2 as (d & -> & E2).
    apply getitem_inr in Es as (? & [= <-] & Es).
    apply getitem_inr in Ec as (? & [= <-] & Ec).
    apply getitem_inr in Eb as (? & [= <-] & Eb).
    apply getitem_inr in Et as (? & [= <-] & Et).
    apply getitem_inr in El as (? & [= <-] & El).
    destruct Hr as (Hl & [m Hm] & [p Hp]).
    destruct (transform_call_made req d v f s c b t l m p g
                Hl Hm Hp E1 E2 E3 Es Ec Eb Et El) as (rest & Etr & Hrest).
    exists p, rest. repeat split; assumption.
Qed.

(** *** The success path *)

(** C1: when the record [record] reaches the preprocessor (so the
    resources are loaded and the amount was converted), and [transform],
    [predict] and [predict_proba] return, and the elements [[0]] and
    [[0, 1]] of their results convert with [int] and [float], the handler
    answers 200 with exactly [{'prediction':
    int(model.predict(preprocessor.transform(record))[0]), 'probability':
    float(model.predict_proba(preprocessor.transform(record))[0, 1])}];
    both model calls receive the one transformed record, and nothing else
    is called. *)
Theorem predict_success req p m record X labels label probabilities proba i f
    (g : globals Obj) :
  EvTransform p record ∈ trace_of (predict py lib req) g ->
  model g = Some m ->
  transform lib p record = inr X ->
  predict_labels lib m X = inr labels ->
  index_0 labels = inr label ->
  int_of_label lib label = inr i ->
  predict_proba lib m X = inr probabilities ->
  index_0_1 probabilities = inr proba ->
  float_of_prob lib proba = inr f ->
  result_of (predict py lib req) g =
    inr {| body := [("prediction", JInt i); ("probability", JFloat f)];
           status := 200 |}
  /\ trace_of (predict py lib req) g =
       [EvTransform p record; EvPredict m X; EvPredictProba m X].
Proof.
  intros H Hm Et Ep El Ei Epp Eq Ef.
  destruct (transform_called _ _ _ _ H)
    as (Hr & Hp & d & v & a & s & c & b & t & l
        & E1 & E2 & E3 & Es & Ec & Eb & Ec' & Eloc & ->).
  pose proof (predict_try_record req d v a s c b t l m p g
                Hm Hp E1 E2 E3 Es Ec Eb Ec' Eloc) as E.
  rewrite (transform_and_predict_run _ m p g Hm Hp) in E.
  rewrite Et, Ep, El, Epp, Eq, Ei, Ef in E.
  unfold result_of, trace_of. rewrite (predict_ready _ _ Hr).
  rewrite (blanket_passes _ _ _ _ _ E). split; reflexivity.
Qed.

(** *** Exceptions the coercion guard does not catch *)

(** C9: when [float(data['amount'])] raises [TypeError], as it does for
    JSON [null], a list or an object, the coercion guard lets it through
    and the blanket handler answers with status 500 and the exception's
    message, not with the 400 response of the guard. *)
Theorem amount_TypeError_is_500 req data v e (g : globals Obj) :
  resources_ready g ->
  get_json_force req = inr data ->
  getitem py data "amount" = inr v ->
  py_float py v = inl e ->
  exn_cls e = TypeError ->
  result_of (predict py lib req) g =
    inr {| body := [("error",
                     JStr ("An error occurred during prediction: " ++ exn_str e))];
           status := 500 |}
  /\ result_of (predict py lib req) g <> inr invalid_amount_response
  /\ (exists e0, py_float py PNone = inl e0 /\ exn_cls e0 = TypeError)
  /\ (forall l, exists e0, py_float py (PList l) = inl e0 /\ exn_cls e0 = TypeError)
  /\ (forall d, exists e0, py_float py (PDict d) = inl e0 /\ exn_cls e0 = TypeError).
Proof.
  intros Hr E1 E2 E3 Ec.
  rewrite (predict_amount_rejected _ _ _ _ _ Hr E1 E2 E3).
  assert (is_ValueError e = false) as ->
    by (unfold is_ValueError; rewrite Ec; reflexivity).
  split; [reflexivity |]. split; [discriminate |].
  repeat split; intros; eexists; (split; [reflexivity |]); reflexivity.
Qed.

(** *** Missing keys *)

Lemma predict_raises_inside req e (g g1 : globals Obj) t :
  resources_ready g ->
  predict_try py lib req g = (inl e, g1, t) ->
  result_of (predict py lib req) g = inr (prediction_error_response e).
Proof.
  intros Hr E. unfold result_of. rewrite (predict_ready _ _ Hr).
  rewrite (blanket_catches _ _ _ _ _ E). reflexivity.
Qed.

(** C8, as the code has it: a request object that lacks one of the six
    keys is answered with status 500 and an 'error' message by the blanket
    handler, unless 'amount' is present and [float] rejects it with
    [ValueError]: the amount is coerced before the other keys are read, so
    that request gets the 400 response whatever else is missing. Status 400
    is returned for nothing but an 'amount' string that is not a number. *)
Theorem missing_key_response req d k (g : globals Obj) :
  resources_ready g ->
  get_json_force req = inr (PDict d) ->
  k ∈ request_keys ->
  d !! k = None ->
  ((forall v e, d !! "amount" = Some v -> py_float py v = inl e ->
                exn_cls e <> ValueError) ->
   exists e,
     result_of (predict py lib req) g =
       inr {| body := [("error",
                        JStr ("An error occurred during prediction: "
                              ++ exn_str e))];
              status := 500 |})
  /\ (forall v e, d !! "amount" = Some v -> py_float py v = inl e ->
                  exn_cls e = ValueError ->
                  result_of (predict py lib req) g = inr invalid_amount_response)
  /\ (forall resp,
        result_of (predict py lib req) g = inr resp ->
        status resp = 400 ->
        exists s, d !! "amount" = Some (PStr s) /\ float_of_str py s = None).
Proof.
  intros Hr E1 Hk Ek. split; [| split].
  - intros Hnv.
    destruct (d !! "amount") as [v |] eqn:E2.
    + destruct (py_float py v) as [e | f] eqn:E3.
      * exists e.
        assert (E2' : getitem py (PDict d) "amount" = inr v)
          by (simpl; rewrite E2; reflexivity).
        rewrite (predict_amount_rejected _ _ _ _ _ Hr E1 E2' E3).
        specialize (Hnv v e eq_refl E3).
        destruct (is_ValueError e) eqn:Ev; [| reflexivity].
        apply is_ValueError_cls in Ev. contradiction.
      * assert (Hk' : k ∈ ["state"; "card_type"; "bank"; "category"; "location"]).
        { unfold request_keys in Hk.
          apply elem_of_cons in Hk as [-> | Hk]; [congruence | exact Hk]. }
        destruct (predict_try_key_missing req d v f k g E1 E2 E3 Hk' Ek)
          as [k' E].
        eexists. rewrite (predict_raises_inside _ _ _ _ _ Hr E). reflexivity.
    + assert (E2' : getitem py (PDict d) "amount"
                    = inl (Exn KeyError (repr_str py "amount")))
        by (simpl; rewrite E2; reflexivity).
      eexists.
      rewrite (predict_raises_inside _ _ _ _ _ Hr
                 (predict_try_amount_missing _ _ _ g E1 E2')).
      reflexivity.
  - intros v e E2 E3 Ev.
    assert (E2' : getitem py (PDict d) "amount" = inr v)
      by (simpl; rewrite E2; reflexivity).
    rewrite (predict_amount_rejected _ _ _ _ _ Hr E1 E2' E3).
    apply is_ValueError_cls in Ev. rewrite Ev. reflexivity.
  - intros resp E Hs.
    destruct (status_400_inv _ _ _ Hr E Hs)
      as (_ & data & v & e & E1' & E2 & E3 & Ev).
    assert (data = PDict d) as -> by congruence.
    apply getitem_inr in E2 as (d' & [= <-] & E2).
    apply is_ValueError_cls in Ev.
    destruct (py_float_ValueError _ _ E3 Ev) as (s & -> & Es). eauto.
Qed.

(** *** Start-up *)

Lemma load_resources_run (g : globals Obj) :
  load_resources lib g =
    match joblib_load lib PREPROCESSOR_PATH with
    | inl e =>
        (inr tt,
         {| model := model g; preprocessor := preprocessor g;
            RESOURCES_LOADED := false |},
         [EvJoblibLoad PREPROCESSOR_PATH;
          EvPrint (nl ++ "FATAL ERROR: Failed to Load Resources! Details: "
                      ++ exn_str e);
          EvPrint (nl ++ "🚨 VERSION CONFLICT: Please re-run your training script (fix_model.py) to save compatible joblib files.")])
    | inr p =>
        match joblib_load lib MODEL_PATH with
        | inl e =>
            (inr tt,
             {| model := model g; preprocessor := p;
                RESOURCES_LOADED := false |},
             [EvJoblibLoad PREPROCESSOR_PATH; EvJoblibLoad MODEL_PATH;
              EvPrint (nl ++ "FATAL ERROR: Failed to Load Resources! Details: "
                          ++ exn_str e);
              EvPrint (nl ++ "🚨 VERSION CONFLICT: Please re-run your training script (fix_model.py) to save compatible joblib files.")])
        | inr m =>
            (inr tt,
             {| model := m; preprocessor := p; RESOURCES_LOADED := true |},
             [EvJoblibLoad PREPROCESSOR_PATH; EvJoblibLoad MODEL_PATH;
              EvPrint (nl ++ "--- Models and Data Loaded Successfully ---"
                          ++ nl)])
        end
    end.
Proof.
  unfold load_resources, try_except, call_joblib_load, bind, emit, lift,
    write_preprocessor, write_model, write_RESOURCES_LOADED, print, ret.
  cbn beta iota.
  destruct (joblib_load lib PREPROCESSOR_PATH) as [e | p]; [reflexivity |].
  destruct (joblib_load lib MODEL_PATH) as [e | m]; reflexivity.
Qed.

(** C6, as the code has it: after [load_resources] has run at start-up,
    [RESOURCES_LOADED] is true if and only if both [joblib.load] calls
    returned; if either raised it is false; when it is true, [preprocessor]
    and [model] are the two objects the loads returned, hence both are
    non-[None] as soon as neither file holds a pickled [None]; and no
    sequence of requests changes the flag afterwards. *)
Theorem load_resources_flag :
  let g := globals_after (load_resources lib) (initial_globals : globals Obj) in
  (RESOURCES_LOADED g = true <->
     exists p m, joblib_load lib PREPROCESSOR_PATH = inr p
                 /\ joblib_load lib MODEL_PATH = inr m)
  /\ ((exists e, joblib_load lib PREPROCESSOR_PATH = inl e)
      \/ (exists e, joblib_load lib MODEL_PATH = inl e) ->
      RESOURCES_LOADED g = false)
  /\ (RESOURCES_LOADED g = true ->
      joblib_load lib PREPROCESSOR_PATH = inr (preprocessor g)
      /\ joblib_load lib MODEL_PATH = inr (model g))
  /\ (RESOURCES_LOADED g = true ->
      joblib_load lib PREPROCESSOR_PATH <> inr None ->
      joblib_load lib MODEL_PATH <> inr None ->
      is_Some (model g) /\ is_Some (preprocessor g))
  /\ (forall rs,
        RESOURCES_LOADED (globals_after (serve py lib dashboard_html rs) g)
        = RESOURCES_LOADED g).
Proof.
  intros g.
  assert (Hserve : forall rs,
             RESOURCES_LOADED (globals_after (serve py lib dashboard_html rs) g)
             = RESOURCES_LOADED g)
    by (intros rs; rewrite read_only_serve; reflexivity).
  revert Hserve. generalize (serve py lib dashboard_html). intros srv Hserve.
  subst g. unfold globals_after at 1 2 3 4 5 6 7 8.
  rewrite load_resources_run.
  destruct (joblib_load lib PREPROCESSOR_PATH) as [e | p] eqn:Ep;
    [| destruct (joblib_load lib MODEL_PATH) as [e | m] eqn:Em]; simpl.
  - repeat split; try discriminate; try exact Hserve.
    intros (p & m & [=] & _).
  - repeat split; try discriminate; try exact Hserve.
    intros (p' & m & _ & [=]).
  - repeat split; eauto.
    + intros [[e [=]] | [e [=]]].
    + destruct m; [eauto | congruence].
    + destruct p; [eauto | congruence].
Qed.

(** ** More of the same code

    *** The shape of a run of [predict] *)

Lemma home_run (g : globals Obj) :
  home lib dashboard_html g =
    if RESOURCES_LOADED g then (inr dashboard_html, g, [])
    else (render_template lib "error.html"
            "Server Error: Model failed to load. Please check logs.",
          g,
          [EvRenderTemplate "error.html"
             "Server Error: Model failed to load. Please check logs."]).
Proof.
  unfold home, call_render_template, bind, read, emit, lift, ret.
  cbn beta iota. destruct (RESOURCES_LOADED g); reflexivity.
Qed.

(** Past the first guard, the body of the [try] either ends before any
    library is called, or is the run of lines 272-282 on the record. *)
Lemma predict_try_cases req (g : globals Obj) :
  resources_ready g ->
  (exists r,
     predict_try py lib req g = (r, g, [])
     /\ forall resp, r = inr resp -> resp = invalid_amount_response)
  \/ (exists d v f s c b t l,
        get_json_force req = inr (PDict d)
        /\ d !! "amount" = Some v /\ py_float py v = inr f
        /\ d !! "state" = Some s /\ d !! "card_type" = Some c
        /\ d !! "bank" = Some b /\ d !! "category" = Some t
        /\ d !! "location" = Some l
        /\ predict_try py lib req g =
             transform_and_predict lib [input_row f s c b t l] g).
Proof.
  intros Hr. pose proof Hr as (_ & [m Hm] & [p Hp]).
  destruct (get_json_force req) as [e | data] eqn:E1.
  { left. eexists. split; [exact (predict_try_no_json _ _ _ E1) |].
    discriminate. }
  destruct (getitem py data "amount") as [e | v] eqn:E2.
  { left. eexists.
    split; [exact (predict_try_amount_missing _ _ _ _ E1 E2) | discriminate]. }
  destruct (py_float py v) as [e | f] eqn:E3.
  { left. rewrite (predict_try_amount_rejected _ _ _ _ _ E1 E2 E3).
    destruct (is_ValueError e); eexists; (split; [reflexivity |]);
      [intros resp [= <-]; reflexivity | discriminate]. }
  apply getitem_inr in E2 as (d & -> & E2).
  assert (Hmiss : forall k,
             k ∈ ["state"; "card_type"; "bank"; "category"; "location"] ->
             d !! k = None ->
             exists r, predict_try py lib req g = (r, g, [])
                       /\ forall resp, r = inr resp ->
                                       resp = invalid_amount_response).
  { intros k Hk Ek.
    destruct (predict_try_key_missing req d v f k g E1 E2 E3 Hk Ek) as [k' E].
    eexists. split; [exact E | discriminate]. }
  destruct (d !! "state") as [s |] eqn:Es;
    [| left; apply (Hmiss "state"); [repeat constructor | exact Es]].
  destruct (d !! "card_type") as [c |] eqn:Ec;
    [| left; apply (Hmiss "card_type"); [repeat constructor | exact Ec]].
  destruct (d !! "bank") as [b |] eqn:Eb;
    [| left; apply (Hmiss "bank"); [repeat constructor | exact Eb]].
  destruct (d !! "category") as [t |] eqn:Et;
    [| left; apply (Hmiss "category"); [repeat constructor | exact Et]].
  destruct (d !! "location") as [l |] eqn:El;
    [| left; apply (Hmiss "location"); [repeat constructor | exact El]].
  right. exists d, v, f, s, c, b, t, l.
  repeat (split; [first [reflexivity | assumption] |]).
  exact (predict_try_record req d v f s c b t l m p g
           Hm Hp E1 E2 E3 Es Ec Eb Et El).
Qed.

(** Lines 272-282 call [transform], then [predict], then [predict_proba],
    each on what the one before returned, and stop at the first failure. *)
Lemma transform_and_predict_cases df m p (g : globals Obj) :
  model g = Some m -> preprocessor g = Some p ->
  exists r rest,
    transform_and_predict lib df g = (r, g, EvTransform p df :: rest)
    /\ ((rest = [] /\ exists e, transform lib p df = inl e /\ r = inl e)
        \/ exists X,
            transform lib p df = inr X
            /\ ((rest = [EvPredict m X]
                 /\ exists e,
                     r = inl e
                     /\ (predict_labels lib m X = inl e
                         \/ exists labels,
                             predict_labels lib m X = inr labels
                             /\ index_0 labels = inl e))
                \/ (rest = [EvPredict m X; EvPredictProba m X]
                    /\ (exists labels label,
                          predict_labels lib m X = inr labels
                          /\ index_0 labels = inr label)
                    /\ ((exists e, r = inl e)
                        \/ exists i f, r = inr (success_response i f))))).
Proof.
  intros Hm Hp. rewrite (transform_and_predict_run _ m p g Hm Hp).
  destruct (transform lib p df) as [e | X] eqn:Et.
  { do 2 eexists. split; [reflexivity |]. left. eauto. }
  destruct (predict_labels lib m X) as [e | labels] eqn:Epl.
  { do 2 eexists. split; [reflexivity |]. right. exists X.
    split; [reflexivity |]. left. eauto 10. }
  destruct (index_0 labels) as [e | l] eqn:Ei.
  { do 2 eexists. split; [reflexivity |]. right. exists X.
    split; [reflexivity |]. left. eauto 10. }
  assert (Hl : exists labels0 label,
             (inr labels : exn + list Lab) = inr labels0
             /\ index_0 labels0 = inr label) by eauto.
  destruct (predict_proba lib m X) as [e | probabilities].
  { do 2 eexists. split; [reflexivity |]. right. exists X.
    split; [reflexivity |]. right. eauto 10. }
  destruct (index_0_1 probabilities) as [e | q].
  { do 2 eexists. split; [reflexivity |]. right. exists X.
    split; [reflexivity |]. right. eauto 10. }
  destruct (int_of_label lib l) as [e | i].
  { do 2 eexists. split; [reflexivity |]. right. exists X.
    split; [reflexivity |]. right. eauto 10. }
  destruct (float_of_prob lib q) as [e | f];
    (do 2 eexists; split; [reflexivity |]; right; exists X;
     split; [reflexivity |]; right; eauto 10).
Qed.

(** *** Start-up, continued *)

(** [load_resources] catches whatever the loads raise: it always returns.
    The flag it leaves depends on the two files alone, not on the globals
    it started from, and running it again on the same files changes
    nothing. *)
Theorem load_resources_always_returns (g g0 : globals Obj) :
  result_of (load_resources lib) g = inr tt
  /\ RESOURCES_LOADED (globals_after (load_resources lib) g)
     = RESOURCES_LOADED (globals_after (load_resources lib) g0)
  /\ globals_after (load_resources lib) (globals_after (load_resources lib) g)
     = globals_after (load_resources lib) g.
Proof.
  unfold result_of, globals_after. rewrite !load_resources_run.
  destruct (joblib_load lib PREPROCESSOR_PATH) as [e | p];
    [| destruct (joblib_load lib MODEL_PATH) as [e | m]];
    repeat split; reflexivity.
Qed.

(** When the preprocessor file does not load, the model file is not even
    opened: [model] and [preprocessor] keep the values they had, the flag
    is lowered, and the failure is printed. *)
Theorem preprocessor_load_failure e (g : globals Obj) :
  joblib_load lib PREPROCESSOR_PATH = inl e ->
  model (globals_after (load_resources lib) g) = model g
  /\ preprocessor (globals_after (load_resources lib) g) = preprocessor g
  /\ RESOURCES_LOADED (globals_after (load_resources lib) g) = false
  /\ (EvJoblibLoad MODEL_PATH ∉ trace_of (load_resources lib) g)
  /\ (EvPrint (nl ++ "FATAL ERROR: Failed to Load Resources! Details: "
                  ++ exn_str e) ∈ trace_of (load_resources lib) g).
Proof.
  intros E. unfold globals_after, trace_of. rewrite load_resources_run, E.
  simpl. repeat split.
  - intros H. elem_of_cases H.
  - apply list_elem_of_further, list_elem_of_here.
Qed.

(** When the preprocessor loads and the model file then fails, the
    assignment already made to [preprocessor] stays: the global holds the
    loaded object although the flag says the resources are not loaded,
    [model] keeps its old value, and [predict] refuses every request. *)
Theorem model_load_failure p e req (g : globals Obj) :
  joblib_load lib PREPROCESSOR_PATH = inr p ->
  joblib_load lib MODEL_PATH = inl e ->
  preprocessor (globals_after (load_resources lib) g) = p
  /\ model (globals_after (load_resources lib) g) = model g
  /\ RESOURCES_LOADED (globals_after (load_resources lib) g) = false
  /\ result_of (predict py lib req) (globals_after (load_resources lib) g)
     = inr not_loaded_response.
Proof.
  intros Ep Em.
  assert (Hf : RESOURCES_LOADED (globals_after (load_resources lib) g) = false).
  { unfold globals_after. rewrite load_resources_run, Ep, Em. reflexivity. }
  split; [| split; [| split; [exact Hf |]]].
  - unfold globals_after. rewrite load_resources_run, Ep, Em. reflexivity.
  - unfold globals_after. rewrite load_resources_run, Ep, Em. reflexivity.
  - unfold result_of. rewrite predict_not_ready; [reflexivity |].
    apply not_ready_cases. left. exact Hf.
Qed.

(** *** Start-up followed by requests *)

(** After a start-up in which either load raised, every [/predict] request
    is answered with the 'not fully loaded' 500 without any library call,
    and [home] hands the fixed message to the template 'error.html' and
    returns, or lets through, whatever the template engine gives. *)
Theorem failed_startup_serves_errors req :
  (exists e, joblib_load lib PREPROCESSOR_PATH = inl e)
  \/ (exists e, joblib_load lib MODEL_PATH = inl e) ->
  let g := globals_after (load_resources lib) (initial_globals : globals Obj) in
  predict py lib req g = (inr not_loaded_response, g, [])
  /\ home lib dashboard_html g =
       (render_template lib "error.html"
          "Server Error: Model failed to load. Please check logs.",
        g,
        [EvRenderTemplate "error.html"
           "Server Error: Model failed to load. Please check logs."]).
Proof.
  intros H g.
  assert (Hf : RESOURCES_LOADED g = false).
  { subst g. unfold globals_after. rewrite load_resources_run.
    destruct H as [[e E] | [e E]]; rewrite E; [reflexivity |].
    destruct (joblib_load lib PREPROCESSOR_PATH); reflexivity. }
  split.
  - apply predict_not_ready. apply not_ready_cases. left. exact Hf.
  - rewrite home_run, Hf. reflexivity.
Qed.

(** After a start-up in which both files gave an object, [home] answers
    with the dashboard page without calling anything, and [predict] lets
    every request past the null-resource guard: the preprocessor and the
    model it calls, if any, are the two loaded objects. *)
Theorem successful_startup_serves req p m :
  joblib_load lib PREPROCESSOR_PATH = inr (Some p) ->
  joblib_load lib MODEL_PATH = inr (Some m) ->
  let g := globals_after (load_resources lib) (initial_globals : globals Obj) in
  home lib dashboard_html g = (inr dashboard_html, g, [])
  /\ result_of (predict py lib req) g <> inr not_loaded_response
  /\ (forall o df, EvTransform o df ∈ trace_of (predict py lib req) g -> o = p)
  /\ (forall o X, EvPredict o X ∈ trace_of (predict py lib req) g -> o = m)
  /\ (forall o X, EvPredictProba o X ∈ trace_of (predict py lib req) g -> o = m).
Proof.
  intros Ep Em g.
  assert (Hg : g = {| model := Some m; preprocessor := Some p;
                      RESOURCES_LOADED := true |}).
  { subst g. unfold globals_after. rewrite load_resources_run, Ep, Em.
    reflexivity. }
  assert (Hr : resources_ready g)
    by (rewrite Hg; unfold resources_ready; simpl; eauto).
  assert (Hm : model g = Some m) by (rewrite Hg; reflexivity).
  assert (Hp : preprocessor g = Some p) by (rewrite Hg; reflexivity).
  clearbody g.
  assert (Hshape :
    (exists r, predict py lib req g = (inr r, g, []) /\ r = invalid_amount_response)
    \/ (exists e t, predict py lib req g =
                      (inr (prediction_error_response e), g, t)
                    /\ forall ev, ev ∈ t ->
                         (exists s, ev = EvPrint s)
                         \/ (exists df, ev = EvTransform p df)
                         \/ (exists X, ev = EvPredict m X)
                         \/ (exists X, ev = EvPredictProba m X))
    \/ (exists i f t, predict py lib req g = (inr (success_response i f), g, t)
                    /\ forall ev, ev ∈ t ->
                         (exists s, ev = EvPrint s)
                         \/ (exists df, ev = EvTransform p df)
                         \/ (exists X, ev = EvPredict m X)
                         \/ (exists X, ev = EvPredictProba m X))).
  { rewrite (predict_ready _ _ Hr).
    destruct (predict_try_cases req g Hr)
      as [(r & E & Hinv) | (d & v & f & s & c & b & t & l & _ & _ & _ & _
                            & _ & _ & _ & _ & E)].
    - destruct r as [e | resp].
      + right. left. exists e. eexists.
        split; [exact (blanket_catches _ _ _ _ _ E) |].
        intros ev Hev. simpl in Hev. elem_of_cases Hev. subst ev. eauto.
      + left. exists resp.
        split; [exact (blanket_passes _ _ _ _ _ E) | auto].
    - destruct (transform_and_predict_cases [input_row f s c b t l] m p g Hm Hp)
        as (r & rest & Etp & Hcases).
      rewrite Etp in E.
      assert (Hrest : forall ev, ev ∈ EvTransform p [input_row f s c b t l] :: rest ->
                 (exists s, ev = EvPrint s)
                 \/ (exists df, ev = EvTransform p df)
                 \/ (exists X, ev = EvPredict m X)
                 \/ (exists X, ev = EvPredictProba m X)).
      { intros ev Hev. apply elem_of_cons in Hev as [-> | Hev]; [eauto |].
        destruct Hcases as [[-> _] | (X & _ & [[-> _] | (-> & _)])];
          elem_of_cases Hev; subst ev; eauto. }
      destruct r as [e | resp].
      + right. left. exists e. eexists.
        split; [exact (blanket_catches _ _ _ _ _ E) |].
        intros ev Hev. apply elem_of_app in Hev as [Hev | Hev]; [auto |].
        elem_of_cases Hev. subst ev. eauto.
      + destruct Hcases as [(_ & e & _ & [=]) | (X & _ & [(_ & e & [=] & _) |
                             (_ & _ & [[e [=]] | (i & f' & [= ->])])])].
        right. right. exists i, f'. eexists.
        split; [exact (blanket_passes _ _ _ _ _ E) | exact Hrest]. }
  split; [rewrite home_run, Hg; reflexivity |].
  unfold result_of, trace_of.
  destruct Hshape as [(r & -> & ->) | [(e & t & -> & Ht) | (i & f & t & -> & Ht)]];
    simpl.
  - repeat split; try discriminate; intros o ? H; elem_of_cases H.
  - repeat split; try discriminate; intros o ? H;
      destruct (Ht _ H) as [[? [=]] | [[? [=]] | [[? [=]] | [? [=]]]]];
      congruence.
  - repeat split; try discriminate; intros o ? H;
      destruct (Ht _ H) as [[? [=]] | [[? [=]] | [[? [=]] | [? [=]]]]];
      congruence.
Qed.

(** [home] looks at the flag alone, [predict] also at the two objects: with
    the flag raised and [model] or [preprocessor] holding [None], the
    dashboard is served, without any call, and every request posted from
    it is refused with the 'not fully loaded' 500. *)
Theorem dashboard_served_predict_refused req (g : globals Obj) :
  RESOURCES_LOADED g = true ->
  model g = None \/ preprocessor g = None ->
  home lib dashboard_html g = (inr dashboard_html, g, [])
  /\ predict py lib req g = (inr not_loaded_response, g, []).
Proof.
  intros Hf Hn. split.
  - rewrite home_run, Hf. reflexivity.
  - apply predict_not_ready. apply not_ready_cases. tauto.
Qed.

(** *** Every run of [predict] *)

(** What the blanket handler adds to a run that ended in [r]. *)
Lemma predict_run_cases req (g : globals Obj) :
  (exists resp,
     predict py lib req g = (inr resp, g, [])
     /\ (resp = not_loaded_response \/ resp = invalid_amount_response))
  \/ (resources_ready g
      /\ exists e,
          predict py lib req g =
            (inr (prediction_error_response e), g,
             [EvPrint ("Prediction Error: " ++ exn_str e)]))
  \/ (resources_ready g
      /\ exists m p df r rest,
          model g = Some m /\ preprocessor g = Some p
          /\ EvTransform p df ∈ trace_of (predict py lib req) g
          /\ transform_and_predict lib df g = (r, g, EvTransform p df :: rest)
          /\ predict py lib req g =
               (inr (match r with
                     | inl e => prediction_error_response e
                     | inr resp => resp
                     end), g,
                EvTransform p df
                  :: (rest ++ match r with
                              | inl e => [EvPrint ("Prediction Error: "
                                                   ++ exn_str e)]
                              | inr _ => []
                              end)%list)).
Proof.
  destruct (resources_ready_dec g) as [Hr | Hn].
  2:{ left. exists not_loaded_response.
      split; [exact (predict_not_ready _ _ Hn) | auto]. }
  pose proof Hr as (_ & [m Hm] & [p Hp]).
  destruct (predict_try_cases req g Hr)
    as [(r & E & Hinv) | (d & v & f & s & c & b & t & l & _ & _ & _ & _
                          & _ & _ & _ & _ & E)].
  - destruct r as [e | resp].
    + right. left. split; [exact Hr |]. exists e.
      rewrite (predict_ready _ _ Hr).
      exact (blanket_catches _ _ _ _ _ E).
    + left. exists resp. rewrite (predict_ready _ _ Hr).
      split; [exact (blanket_passes _ _ _ _ _ E) | auto].
  - right. right. split; [exact Hr |].
    destruct (transform_and_predict_cases [input_row f s c b t l] m p g Hm Hp)
      as (r & rest & Etp & _).
    rewrite Etp in E.
    assert (Hrun : predict py lib req g =
               (inr (match r with
                     | inl e => prediction_error_response e
                     | inr resp => resp
                     end), g,
                EvTransform p [input_row f s c b t l]
                  :: (rest ++ match r with
                              | inl e => [EvPrint ("Prediction Error: "
                                                   ++ exn_str e)]
                              | inr _ => []
                              end)%list)).
    { rewrite (predict_ready _ _ Hr). destruct r as [e | resp].
      - exact (blanket_catches _ _ _ _ _ E).
      - rewrite (blanket_passes _ _ _ _ _ E), app_nil_r. reflexivity. }
    exists m, p, [input_row f s c b t l], r, rest.
    repeat (split; [first [assumption | reflexivity] |]).
    split; [| split; [exact Etp | exact Hrun]].
    unfold trace_of. rewrite Hrun. apply list_elem_of_here.
Qed.

Lemma response_kinds_differ (e : exn) i (f : F) :
  (not_loaded_response : response F) <> prediction_error_response e
  /\ (invalid_amount_response : response F) <> prediction_error_response e
  /\ success_response i f <> prediction_error_response e.
Proof. repeat split; discriminate. Qed.

(** *** Bodies that are not what the form sends *)

(** A body that decodes to anything but an object (a list, a string, a
    number, a boolean, [null]) fails at [data['amount']] with [TypeError]:
    the answer is the blanket 500, one line is printed and no library is
    called. *)
Theorem non_object_body_is_500 req data (g : globals Obj) :
  resources_ready g ->
  get_json_force req = inr data ->
  (forall d, data <> PDict d) ->
  exists e,
    exn_cls e = TypeError
    /\ predict py lib req g =
         (inr {| body := [("error",
                           JStr ("An error occurred during prediction: "
                                 ++ exn_str e))];
                 status := 500 |},
          g, [EvPrint ("Prediction Error: " ++ exn_str e)]).
Proof.
  intros Hr E1 Hd.
  assert (Hg : exists e, exn_cls e = TypeError
                         /\ getitem py data "amount" = inl e).
  { destruct data; simpl; try (eexists; split; [| reflexivity]; reflexivity).
    exfalso. exact (Hd _ eq_refl). }
  destruct Hg as (e & Hc & E2). exists e. split; [exact Hc |].
  rewrite (predict_ready _ _ Hr).
  exact (blanket_catches _ _ _ _ _
           (predict_try_amount_missing _ _ _ g E1 E2)).
Qed.

(** When the body cannot be decoded, the exception [get_json] raises is
    answered by the blanket handler with status 500 and its message, also
    when it is a [ValueError]: the 400 of the coercion guard is not for it.
    No library is called. *)
Theorem undecodable_body_is_500 req e (g : globals Obj) :
  resources_ready g ->
  get_json_force req = inl e ->
  predict py lib req g =
    (inr {| body := [("error",
                      JStr ("An error occurred during prediction: "
                            ++ exn_str e))];
            status := 500 |},
     g, [EvPrint ("Prediction Error: " ++ exn_str e)])
  /\ result_of (predict py lib req) g <> inr invalid_amount_response.
Proof.
  intros Hr E1.
  assert (E : predict py lib req g =
                (inr (prediction_error_response e), g,
                 [EvPrint ("Prediction Error: " ++ exn_str e)])).
  { rewrite (predict_ready _ _ Hr).
    exact (blanket_catches _ _ _ _ _ (predict_try_no_json _ _ g E1)). }
  split; [exact E |]. unfold result_of. rewrite E. discriminate.
Qed.

(** With an amount that converts (or no amount at all), the 500 answer
    names the first key the body lacks, in the order 'amount', 'state',
    'card_type', 'bank', 'category', 'location': later missing keys are
    not reported, and no library is called. *)
Theorem first_missing_key_reported req d k (g : globals Obj) :
  resources_ready g ->
  get_json_force req = inr (PDict d) ->
  (forall v, d !! "amount" = Some v -> exists f, py_float py v = inr f) ->
  first_missing_key d = Some k ->
  predict py lib req g =
    (inr {| body := [("error",
                      JStr ("An error occurred during prediction: "
                            ++ repr_str py k))];
            status := 500 |},
     g, [EvPrint ("Prediction Error: " ++ repr_str py k)]).
Proof.
  intros Hr E1 Hconv Hk. rewrite (predict_ready _ _ Hr).
  unfold first_missing_key, request_keys in Hk. simpl in Hk.
  destruct (d !! "amount") as [v |] eqn:E2; simpl in Hk.
  2:{ injection Hk as <-.
      assert (E2' : getitem py (PDict d) "amount"
                    = inl (Exn KeyError (repr_str py "amount")))
        by (simpl; rewrite E2; reflexivity).
      exact (blanket_catches _ _ _ _ _
               (predict_try_amount_missing _ _ _ g E1 E2')). }
  destruct (Hconv v eq_refl) as [f E3].
  assert (E : predict_try py lib req g
              = (inl (Exn KeyError (repr_str py k)), g, [])).
  { rewrite (predict_try_amount_converted _ _ _ _ _ E1 E2 E3).
    unfold bind. rewrite build_input_data_run.
    destruct (d !! "state"); simpl in Hk; [| injection Hk as <-; reflexivity].
    destruct (d !! "card_type"); simpl in Hk;
      [| injection Hk as <-; reflexivity].
    destruct (d !! "bank"); simpl in Hk; [| injection Hk as <-; reflexivity].
    destruct (d !! "category"); simpl in Hk;
      [| injection Hk as <-; reflexivity].
    destruct (d !! "location"); simpl in Hk;
      [discriminate | injection Hk as <-; reflexivity]. }
  exact (blanket_catches _ _ _ _ _ E).
Qed.

(** *** What of the body matters *)

(** [predict] reads the body through [float(data['amount'])] and the five
    other keys, and through nothing else. *)
Lemma predict_congruence req req' d d' (g : globals Obj) :
  get_json_force req = inr (PDict d) ->
  get_json_force req' = inr (PDict d') ->
  py_float py <$> d !! "amount" = py_float py <$> d' !! "amount" ->
  d !! "state" = d' !! "state" ->
  d !! "card_type" = d' !! "card_type" ->
  d !! "bank" = d' !! "bank" ->
  d !! "category" = d' !! "category" ->
  d !! "location" = d' !! "location" ->
  predict py lib req g = predict py lib req' g.
Proof.
  intros E1 E1' Ha Es Ec Eb Et El.
  destruct (resources_ready_dec g) as [Hr | Hn].
  2:{ rewrite !(predict_not_ready _ _ Hn). reflexivity. }
  rewrite !(predict_ready _ _ Hr).
  assert (E : predict_try py lib req g = predict_try py lib req' g);
    [| unfold try_except; rewrite E; reflexivity].
  destruct (d !! "amount") as [v |] eqn:E2,
           (d' !! "amount") as [v' |] eqn:E2'; simpl in Ha; try discriminate.
  - injection Ha as Ha.
    assert (G : getitem py (PDict d) "amount" = inr v)
      by (simpl; rewrite E2; reflexivity).
    assert (G' : getitem py (PDict d') "amount" = inr v')
      by (simpl; rewrite E2'; reflexivity).
    destruct (py_float py v) as [e | f] eqn:E3; symmetry in Ha.
    + rewrite (predict_try_amount_rejected _ _ _ _ g E1 G E3).
      rewrite (predict_try_amount_rejected _ _ _ _ g E1' G' Ha).
      reflexivity.
    + rewrite (predict_try_amount_converted _ _ _ _ g E1 E2 E3).
      rewrite (predict_try_amount_converted _ _ _ _ g E1' E2' Ha).
      unfold bind. rewrite !build_input_data_run.
      rewrite Es, Ec, Eb, Et, El. reflexivity.
  - assert (G : getitem py (PDict d) "amount"
                = inl (Exn KeyError (repr_str py "amount")))
      by (simpl; rewrite E2; reflexivity).
    assert (G' : getitem py (PDict d') "amount"
                 = inl (Exn KeyError (repr_str py "amount")))
      by (simpl; rewrite E2'; reflexivity).
    rewrite (predict_try_amount_missing _ _ _ g E1 G).
    rewrite (predict_try_amount_missing _ _ _ g E1' G').
    reflexivity.
Qed.

(** Keys other than the six are ignored: two bodies that agree on
    'amount', 'state', 'card_type', 'bank', 'category' and 'location' get
    the same answer, with the same calls made, whatever else they hold. *)
Theorem other_keys_are_ignored req req' d d' (g : globals Obj) :
  get_json_force req = inr (PDict d) ->
  get_json_force req' = inr (PDict d') ->
  (forall k, k ∈ request_keys -> d !! k = d' !! k) ->
  predict py lib req g = predict py lib req' g.
Proof.
  intros E1 E1' H.
  apply (predict_congruence req req' d d' g E1 E1');
    try (apply H; unfold request_keys; repeat constructor).
  rewrite (H "amount"); [reflexivity |].
  unfold request_keys. repeat constructor.
Qed.

(** The amount is seen through [float] alone: replacing it by any value
    with the same conversion changes neither the answer nor the calls. In
    particular the JSON booleans [true] and [false] are taken as the
    amounts 1 and 0, not rejected. *)
Theorem amount_seen_through_float req req' d v v' (g : globals Obj) :
  get_json_force req = inr (PDict d) ->
  d !! "amount" = Some v ->
  py_float py v' = py_float py v ->
  get_json_force req' = inr (PDict (<["amount" := v']> d)) ->
  predict py lib req' g = predict py lib req g
  /\ py_float py (PBool true) = py_float py (PInt 1)
  /\ py_float py (PBool false) = py_float py (PInt 0).
Proof.
  intros E1 E2 Hf E1'. split; [| split; reflexivity].
  apply (predict_congruence req' req _ d g E1' E1);
    try (apply lookup_insert_ne; discriminate).
  rewrite lookup_insert_eq, E2. simpl. rewrite Hf. reflexivity.
Qed.

(** *** The order of the library calls *)

(** The classifier only ever sees what the preprocessor returned for the
    request's record: each [predict] call is on the model the global holds
    and on the result of a [transform] call of the same request, and
    [predict_proba] runs only after [predict] returned, on the same
    matrix, an array with an element [[0]]. *)
Theorem classifier_sees_transformed_record req (g : globals Obj) :
  (forall o X,
     EvPredict o X ∈ trace_of (predict py lib req) g ->
     model g = Some o
     /\ exists p df,
         EvTransform p df ∈ trace_of (predict py lib req) g
         /\ transform lib p df = inr X)
  /\ (forall o X,
        EvPredictProba o X ∈ trace_of (predict py lib req) g ->
        EvPredict o X ∈ trace_of (predict py lib req) g
        /\ exists labels label,
            predict_labels lib o X = inr labels
            /\ index_0 labels = inr label).
Proof.
  destruct (predict_run_cases req g)
    as [(resp & E & _) | [(_ & e & E) | (_ & m & p & df & r & rest & Hm & Hp
                                         & Hin & Etp & E)]].
  - unfold trace_of. rewrite E. simpl.
    split; intros o X H; elem_of_cases H.
  - unfold trace_of. rewrite E. simpl.
    split; intros o X H; elem_of_cases H.
  - destruct (transform_and_predict_cases df m p g Hm Hp)
      as (r' & rest' & Etp' & Hc).
    rewrite Etp in Etp'. injection Etp' as <- <-.
    unfold trace_of in *. rewrite E in *. simpl in *.
    destruct Hc as [(-> & _) | (X0 & Et & [(-> & _) | (-> & Hl & _)])];
      split; intros o X H;
      apply elem_of_cons in H as [H | H]; try discriminate;
      apply elem_of_app in H as [H | H];
      try (destruct r; elem_of_cases H; fail);
      elem_of_cases H.
    + injection H as <- <-. split; [exact Hm |].
      exists p, df. split; [apply list_elem_of_here | exact Et].
    + injection H as <- <-. split; [exact Hm |].
      exists p, df. split; [apply list_elem_of_here | exact Et].
    + injection H as <- <-.
      split; [apply list_elem_of_further, list_elem_of_here | exact Hl].
Qed.

(** The server prints a line exactly for the requests the blanket handler
    answers: 'Prediction Error: ' followed by the message that is also in
    the 500 body. The refusals of the two guards and the successes print
    nothing. *)
Theorem failures_are_printed req s (g : globals Obj) :
  EvPrint s ∈ trace_of (predict py lib req) g <->
  exists e,
    result_of (predict py lib req) g = inr (prediction_error_response e)
    /\ s = "Prediction Error: " ++ exn_str e.
Proof.
  unfold trace_of, result_of.
  destruct (predict_run_cases req g)
    as [(resp & E & Hresp) | [(_ & e & E) | (_ & m & p & df & r & rest & Hm & Hp
                                             & _ & Etp & E)]];
    rewrite E; simpl.
  - split.
    + intros H. elem_of_cases H.
    + intros (e & [= ->] & _).
      destruct Hresp as [H | H]; discriminate.
  - split.
    + intros H. elem_of_cases H. injection H as ->. eauto.
    + intros (e' & [= He] & ->).
      change (exn_str e = exn_str e') in He. rewrite <- He.
      apply list_elem_of_here.
  - destruct (transform_and_predict_cases df m p g Hm Hp)
      as (r' & rest' & Etp' & Hc).
    rewrite Etp in Etp'. injection Etp' as <- <-.
    assert (Hrest : EvPrint s ∉ rest).
    { intros H.
      destruct Hc as [(-> & _) | (X0 & _ & [(-> & _) | (-> & _)])];
        elem_of_cases H. }
    split.
    + intros H. apply elem_of_cons in H as [H | H]; [discriminate |].
      apply elem_of_app in H as [H | H]; [contradiction |].
      destruct r as [e | resp]; elem_of_cases H.
      injection H as ->. eauto.
    + intros (e' & [= He] & ->).
      apply list_elem_of_further, elem_of_app. right.
      destruct r as [e | resp].
      * injection He as He.
        change (exn_str e = exn_str e') in He. rewrite <- He.
        apply list_elem_of_here.
      * exfalso.
        destruct Hc as [(_ & e & _ & [=]) | (X0 & _ & [(_ & e & [=] & _) |
                         (_ & _ & [[e [=]] | (i & f & [= ->])])])].
        discriminate.
Qed.

(** *** Failures inside the libraries *)

Lemma predict_reaches_library req p df (g : globals Obj) :
  EvTransform p df ∈ trace_of (predict py lib req) g ->
  resources_ready g /\ preprocessor g = Some p
  /\ predict_try py lib req g = transform_and_predict lib df g.
Proof.
  intros H.
  destruct (transform_called _ _ _ _ H)
    as (Hr & Hp & d & v & f & s & c & b & t & l
        & E1 & E2 & E3 & Es & Ec & Eb & Et & El & ->).
  pose proof Hr as (_ & [m Hm] & _).
  split; [exact Hr |]. split; [exact Hp |].
  exact (predict_try_record req d v f s c b t l m p g
           Hm Hp E1 E2 E3 Es Ec Eb Et El).
Qed.

(** An exception raised by [preprocessor.transform], of whatever class,
    [ValueError] included, is answered with the blanket 500 carrying its
    message; the classifier is not called. *)
Theorem preprocessor_failure_is_500 req p df e (g : globals Obj) :
  EvTransform p df ∈ trace_of (predict py lib req) g ->
  transform lib p df = inl e ->
  predict py lib req g =
    (inr {| body := [("error",
                      JStr ("An error occurred during prediction: "
                            ++ exn_str e))];
            status := 500 |},
     g,
     [EvTransform p df; EvPrint ("Prediction Error: " ++ exn_str e)]).
Proof.
  intros H Et.
  destruct (predict_reaches_library _ _ _ _ H) as (Hr & Hp & E).
  pose proof Hr as (_ & [m Hm] & _).
  rewrite (transform_and_predict_run _ m p g Hm Hp), Et in E.
  rewrite (predict_ready _ _ Hr).
  exact (blanket_catches _ _ _ _ _ E).
Qed.

(** An exception raised by [model.predict] is answered with the blanket
    500 carrying its message, and [predict_proba] is not called. *)
Theorem classifier_failure_is_500 req p df X m e (g : globals Obj) :
  EvTransform p df ∈ trace_of (predict py lib req) g ->
  transform lib p df = inr X ->
  model g = Some m ->
  predict_labels lib m X = inl e ->
  predict py lib req g =
    (inr {| body := [("error",
                      JStr ("An error occurred during prediction: "
                            ++ exn_str e))];
            status := 500 |},
     g,
     [EvTransform p df; EvPredict m X;
      EvPrint ("Prediction Error: " ++ exn_str e)]).
Proof.
  intros H Et Hm Ep.
  destruct (predict_reaches_library _ _ _ _ H) as (Hr & Hp & E).
  rewrite (transform_and_predict_run _ m p g Hm Hp), Et, Ep in E.
  rewrite (predict_ready _ _ Hr).
  exact (blanket_catches _ _ _ _ _ E).
Qed.

(** When [model.predict] returns an empty array, the element [[0]] does
    not exist: the answer is the blanket 500 for an [IndexError], and
    [predict_proba] is not called. *)
Theorem empty_prediction_is_500 req p df X m (g : globals Obj) :
  EvTransform p df ∈ trace_of (predict py lib req) g ->
  transform lib p df = inr X ->
  model g = Some m ->
  predict_labels lib m X = inr [] ->
  exists e,
    exn_cls e = IndexError
    /\ predict py lib req g =
         (inr (prediction_error_response e), g,
          [EvTransform p df; EvPredict m X;
           EvPrint ("Prediction Error: " ++ exn_str e)]).
Proof.
  intros H Et Hm Ep.
  destruct (predict_reaches_library _ _ _ _ H) as (Hr & Hp & E).
  rewrite (transform_and_predict_run _ m p g Hm Hp), Et, Ep in E.
  simpl in E. eexists. split; [| rewrite (predict_ready _ _ Hr);
                                 exact (blanket_catches _ _ _ _ _ E)].
  reflexivity.
Qed.

(** When the first row of what [predict_proba] returns has no second
    column (or there is no row at all), the class-1 probability [[0, 1]]
    does not exist: the answer is the blanket 500 for an [IndexError],
    although a label was predicted. *)
Theorem missing_fraud_column_is_500 req p df X m labels label probabilities
    (g : globals Obj) :
  EvTransform p df ∈ trace_of (predict py lib req) g ->
  transform lib p df = inr X ->
  model g = Some m ->
  predict_labels lib m X = inr labels ->
  index_0 labels = inr label ->
  predict_proba lib m X = inr probabilities ->
  (forall r, probabilities !! 0 = Some r -> length r < 2) ->
  exists e,
    exn_cls e = IndexError
    /\ predict py lib req g =
         (inr (prediction_error_response e), g,
          [EvTransform p df; EvPredict m X; EvPredictProba m X;
           EvPrint ("Prediction Error: " ++ exn_str e)]).
Proof.
  intros H Et Hm Ep Ei Epp Hshort.
  destruct (predict_reaches_library _ _ _ _ H) as (Hr & Hp & E).
  rewrite (transform_and_predict_run _ m p g Hm Hp), Et, Ep, Ei, Epp in E.
  assert (Hix : exists e, exn_cls e = IndexError
                          /\ index_0_1 probabilities = inl e).
  { unfold index_0_1. destruct (probabilities !! 0) as [r |] eqn:E0.
    - specialize (Hshort r eq_refl).
      rewrite (proj2 (lookup_ge_None r 1)) by lia.
      eexists. split; [| reflexivity]. reflexivity.
    - eexists. split; [| reflexivity]. reflexivity. }
  destruct Hix as (e & Hc & Ex). rewrite Ex in E.
  exists e. split; [exact Hc |].
  rewrite (predict_ready _ _ Hr).
  exact (blanket_catches _ _ _ _ _ E).
Qed.

End Properties.

(** ** The theorems at work on the concrete instance *)

Import Demo.

Lemma loaded_globals_ready : resources_ready loaded_globals.
Proof. unfold resources_ready. simpl. eauto. Defined.

Lemma predict_refuses_when_not_loaded_witness :
  (RESOURCES_LOADED (initial_globals : globals artifact) = false
   \/ model (initial_globals : globals artifact) = None
   \/ preprocessor (initial_globals : globals artifact) = None)
  /\ result_of (predict demo_builtins demo_library (form_request "1200.50"))
       initial_globals
     = inr {| body := [("error",
                        JStr "Model resources not fully loaded on server.")];
              status := 500 |}
  /\ trace_of (predict demo_builtins demo_library (form_request "1200.50"))
       initial_globals = [].
Proof.
  split; [left; reflexivity |].
  destruct (predict_refuses_when_not_loaded demo_builtins demo_library
              (form_request "1200.50") initial_globals
              (or_introl eq_refl)) as (Hres & Htr & _).
  split; [exact Hres | exact Htr].
Defined.

Lemma predict_success_witness :
  EvTransform ColumnTransformer (form_record 120050)
    ∈ trace_of (predict demo_builtins demo_library (form_request "1200.50"))
        loaded_globals
  /\ result_of (predict demo_builtins demo_library (form_request "1200.50"))
       loaded_globals
     = inr {| body := [("prediction", JInt 1); ("probability", JFloat 93%Z)];
              status := 200 |}.
Proof.
  assert (H : EvTransform ColumnTransformer (form_record 120050)
                ∈ trace_of (predict demo_builtins demo_library
                              (form_request "1200.50")) loaded_globals)
    by (vm_compute; apply list_elem_of_here).
  split; [exact H |].
  apply (predict_success demo_builtins demo_library (form_request "1200.50")
           ColumnTransformer Pipeline (form_record 120050) 120050%Z
           [1%Z] 1%Z [[7%Z; 93%Z]] 93%Z 1%Z 93%Z loaded_globals H);
    reflexivity.
Defined.

Lemma input_record_schema_witness :
  resources_ready loaded_globals
  /\ form_fields "1200.50" !! "amount" = Some (PStr "1200.50")
  /\ py_float demo_builtins (PStr "1200.50") = inr 120050%Z
  /\ exists rest,
       trace_of (predict demo_builtins demo_library (form_request "1200.50"))
         loaded_globals
       = EvTransform ColumnTransformer (form_record 120050) :: rest.
Proof.
  split; [exact loaded_globals_ready |].
  split; [reflexivity |]. split; [reflexivity |].
  destruct (input_record_schema demo_builtins demo_library
              (form_request "1200.50") (form_fields "1200.50")
              (PStr "1200.50") 120050%Z loaded_globals
              loaded_globals_ready eq_refl eq_refl eq_refl) as [_ Hmade].
  destruct (Hmade (PStr "Telangana") (PStr "Rupay") (PStr "ICICI Bank")
              (PStr "Transportation") (PStr "Bangalore")
              eq_refl eq_refl eq_refl eq_refl eq_refl)
    as (p & rest & Hp & Htr & _).
  injection Hp as <-. exists rest. exact Htr.
Defined.

Lemma categorical_fields_unchanged_witness :
  resources_ready loaded_globals
  /\ form_fields "1200.50" !! "amount" = Some (PStr "1200.50")
  /\ py_float demo_builtins (PStr "1200.50") = inr 120050%Z
  /\ (exists d',
        result_of (coerce_amount demo_builtins (PDict (form_fields "1200.50"))
                   : M Z artifact Z _) loaded_globals
        = inr (inr (PDict d'))
        /\ d' !! "state" = Some (PStr "Telangana"))
  /\ (exists rest,
        trace_of (predict demo_builtins demo_library (form_request "1200.50"))
          loaded_globals
        = EvTransform ColumnTransformer
            [[("Transaction Amount (INR)", PFloat 120050%Z);
              ("State", PStr "Telangana");
              ("Card Type", PStr "Rupay");
              ("Bank", PStr "ICICI Bank");
              ("Transaction Category", PStr "Transportation");
              ("Merchant Location", PStr "Bangalore")]] :: rest)
  /\ (exists r : row Z,
        form_fields "1200.50" !! "bank" = Some (PStr "ICICI Bank")
        /\ ("Bank", PStr "ICICI Bank") ∈ r
        /\ forall cell, ("Bank", cell) ∈ r -> cell = PStr "ICICI Bank").
Proof.
  split; [exact loaded_globals_ready |].
  split; [reflexivity |]. split; [reflexivity |].
  destruct (categorical_fields_unchanged demo_builtins demo_library
              (form_request "1200.50") (form_fields "1200.50")
              (PStr "1200.50") 120050%Z loaded_globals
              loaded_globals_ready eq_refl eq_refl eq_refl)
    as ((d' & Hres & Hsame) & Hcols & Hmade).
  destruct (Hmade (PStr "Telangana") (PStr "Rupay") (PStr "ICICI Bank")
              (PStr "Transportation") (PStr "Bangalore")
              eq_refl eq_refl eq_refl eq_refl eq_refl)
    as (p & rest & Hp & Htr & _).
  injection Hp as <-.
  split; [| split].
  - exists d'. split; [exact Hres |].
    rewrite (Hsame "state"); [reflexivity | discriminate].
  - exists rest. exact Htr.
  - assert (Hin : EvTransform ColumnTransformer (form_record 120050)
                    ∈ trace_of (predict demo_builtins demo_library
                                  (form_request "1200.50")) loaded_globals)
      by (rewrite Htr; apply list_elem_of_here).
    assert (Hc : ("Bank", "bank") ∈ categorical_columns)
      by (unfold categorical_columns; repeat constructor).
    destruct (Hcols ColumnTransformer (form_record 120050) "Bank" "bank" Hin Hc)
      as (r & received & _ & Hrec & Hr1 & Hr2).
    assert (received = PStr "ICICI Bank") as ->
      by (vm_compute in Hrec; congruence).
    exists r. split; [reflexivity |]. split; [exact Hr1 | exact Hr2].
Defined.

Lemma amount_coercion_guard_witness :
  resources_ready loaded_globals
  /\ result_of (predict demo_builtins demo_library (form_request "abc"))
       loaded_globals
     = inr {| body := [("error",
                        JStr "Invalid format for Transaction Amount. Must be a number.")];
              status := 400 |}
  /\ getitem demo_builtins (PDict (form_fields "1200.50")) "amount"
     = inr (PStr "1200.50")
  /\ py_float demo_builtins (PStr "1200.50") = inr 120050%Z
  /\ exists rest,
       trace_of (predict demo_builtins demo_library (form_request "1200.50"))
         loaded_globals
       = EvTransform ColumnTransformer
           [[("Transaction Amount (INR)", PFloat 120050%Z);
             ("State", PStr "Telangana");
             ("Card Type", PStr "Rupay");
             ("Bank", PStr "ICICI Bank");
             ("Transaction Category", PStr "Transportation");
             ("Merchant Location", PStr "Bangalore")]] :: rest.
Proof.
  split; [exact loaded_globals_ready |]. split; [| split; [| split]].
  - apply (proj1 (amount_coercion_guard demo_builtins demo_library
                    (form_request "abc") loaded_globals loaded_globals_ready)).
    exists (PDict (form_fields "abc")), (PStr "abc"),
      (Exn ValueError ("could not convert string to float: " ++ "'abc'")).
    repeat split; reflexivity.
  - reflexivity.
  - reflexivity.
  - destruct (amount_coercion_guard demo_builtins demo_library
                (form_request "1200.50") loaded_globals loaded_globals_ready)
      as (_ & _ & _ & Hmade).
    destruct (Hmade (PDict (form_fields "1200.50")) (PStr "1200.50") 120050%Z
                (PStr "Telangana") (PStr "Rupay") (PStr "ICICI Bank")
                (PStr "Transportation") (PStr "Bangalore")
                eq_refl eq_refl eq_refl eq_refl eq_refl eq_refl eq_refl eq_refl)
      as (p & rest & Hp & Htr & _).
    injection Hp as <-. exists rest. exact Htr.
Defined.

Lemma amount_TypeError_is_500_witness :
  resources_ready loaded_globals
  /\ getitem demo_builtins (PDict null_amount_fields) "amount" = inr PNone
  /\ result_of (predict demo_builtins demo_library null_amount) loaded_globals
     = inr {| body := [("error",
                        JStr "An error occurred during prediction: float() argument must be a string or a real number, not 'NoneType'")];
              status := 500 |}.
Proof.
  split; [exact loaded_globals_ready |]. split; [reflexivity |].
  exact (proj1 (amount_TypeError_is_500 demo_builtins demo_library
                  null_amount (PDict null_amount_fields) PNone
                  (Exn TypeError
                     "float() argument must be a string or a real number, not 'NoneType'")
                  loaded_globals loaded_globals_ready
                  eq_refl eq_refl eq_refl eq_refl)).
Defined.

Lemma missing_key_response_witness :
  resources_ready loaded_globals
  /\ "state" ∈ request_keys
  /\ amount_fields !! "state" = None
  /\ exists e,
       result_of (predict demo_builtins demo_library amount_only) loaded_globals
       = inr {| body := [("error",
                          JStr ("An error occurred during prediction: "
                                ++ exn_str e))];
                status := 500 |}.
Proof.
  assert (Hk : "state" ∈ request_keys)
    by (unfold request_keys; apply list_elem_of_further, list_elem_of_here).
  split; [exact loaded_globals_ready |]. split; [exact Hk |].
  split; [reflexivity |].
  apply (proj1 (missing_key_response demo_builtins demo_library amount_only
                  amount_fields "state" loaded_globals
                  loaded_globals_ready eq_refl Hk eq_refl)).
  intros v e Hv He.
  assert (v = PStr "99") as -> by (vm_compute in Hv; congruence).
  vm_compute in He. discriminate.
Defined.

(** A body that lacks 'state' (and four more keys) and whose amount is not
    a number is answered with 400, not 500. *)
Lemma missing_key_with_bad_amount_is_400 :
  resources_ready loaded_globals
  /\ get_json_force bad_amount_only = inr (PDict bad_amount_fields)
  /\ bad_amount_fields !! "state" = None
  /\ result_of (predict demo_builtins demo_library bad_amount_only)
       loaded_globals
     = inr {| body := [("error",
                        JStr "Invalid format for Transaction Amount. Must be a number.")];
              status := 400 |}
  /\ ~ (exists resp,
          result_of (predict demo_builtins demo_library bad_amount_only)
            loaded_globals = inr resp
          /\ status resp = 500).
Proof.
  split; [exact loaded_globals_ready |].
  split; [reflexivity |]. split; [reflexivity |].
  split; [reflexivity |].
  intros (resp & Hres & Hs).
  vm_compute in Hres. injection Hres as <-. discriminate.
Qed.

Lemma load_resources_flag_witness :
  let g := globals_after (load_resources demo_library)
             (initial_globals : globals artifact) in
  RESOURCES_LOADED g = true
  /\ is_Some (model g) /\ is_Some (preprocessor g)
  /\ RESOURCES_LOADED
       (globals_after
          (serve demo_builtins demo_library "<html>"
             [GET_home; POST_predict (form_request "abc")]) g) = true.
Proof.
  intros g.
  destruct (load_resources_flag demo_builtins demo_library "<html>")
    as (Hiff & _ & _ & Hsome & Hserve).
  assert (Hl : RESOURCES_LOADED g = true).
  { apply Hiff. exists (Some ColumnTransformer), (Some Pipeline).
    split; reflexivity. }
  split; [exact Hl |].
  destruct (Hsome Hl) as [Hm Hp]; [discriminate | discriminate |].
  split; [exact Hm |]. split; [exact Hp |].
  rewrite Hserve. exact Hl.
Defined.

(** With a model file that holds a pickled [None], both loads return, the
    flag is raised, and [model] is [None]. *)
Lemma flag_raised_with_None_model :
  let g := globals_after (load_resources empty_model_library)
             (initial_globals : globals artifact) in
  joblib_load empty_model_library PREPROCESSOR_PATH = inr (Some ColumnTransformer)
  /\ joblib_load empty_model_library MODEL_PATH = inr None
  /\ RESOURCES_LOADED g = true
  /\ model g = None
  /\ ~ (RESOURCES_LOADED g = true ->
        is_Some (model g) /\ is_Some (preprocessor g)).
Proof.
  intros g. repeat split; try reflexivity.
  intros H. destruct (H eq_refl) as [[m Hm] _]. discriminate.
Qed.

(** *** More runs on the concrete instance *)

Lemma preprocessor_load_failure_witness :
  joblib_load no_files_library PREPROCESSOR_PATH
    = inl (file_not_found PREPROCESSOR_PATH)
  /\ model (globals_after (load_resources no_files_library) loaded_globals)
     = Some Pipeline
  /\ RESOURCES_LOADED
       (globals_after (load_resources no_files_library) loaded_globals) = false.
Proof.
  split; [reflexivity |].
  destruct (preprocessor_load_failure no_files_library
              (file_not_found PREPROCESSOR_PATH) loaded_globals eq_refl)
    as (Hm & _ & Hf & _).
  split; [exact Hm | exact Hf].
Defined.

Lemma model_load_failure_witness :
  joblib_load no_model_library PREPROCESSOR_PATH = inr (Some ColumnTransformer)
  /\ joblib_load no_model_library MODEL_PATH = inl (file_not_found MODEL_PATH)
  /\ preprocessor
       (globals_after (load_resources no_model_library)
          (initial_globals : globals artifact)) = Some ColumnTransformer
  /\ result_of (predict demo_builtins no_model_library (form_request "99"))
       (globals_after (load_resources no_model_library) initial_globals)
     = inr not_loaded_response.
Proof.
  split; [reflexivity |]. split; [reflexivity |].
  destruct (model_load_failure demo_builtins no_model_library
              (Some ColumnTransformer) (file_not_found MODEL_PATH)
              (form_request "99") initial_globals eq_refl eq_refl)
    as (Hp & _ & _ & Hres).
  split; [exact Hp | exact Hres].
Defined.

Lemma failed_startup_serves_errors_witness :
  (exists e, joblib_load no_model_library MODEL_PATH = inl e)
  /\ result_of (predict demo_builtins no_model_library (form_request "99"))
       (globals_after (load_resources no_model_library)
          (initial_globals : globals artifact))
     = inr not_loaded_response.
Proof.
  assert (H : exists e, joblib_load no_model_library MODEL_PATH = inl e)
    by (eexists; reflexivity).
  split; [exact H |].
  destruct (failed_startup_serves_errors demo_builtins no_model_library
              "<html>" (form_request "99") (or_intror H)) as [Hp _].
  unfold result_of. rewrite Hp. reflexivity.
Defined.

Lemma successful_startup_serves_witness :
  joblib_load demo_library PREPROCESSOR_PATH = inr (Some ColumnTransformer)
  /\ joblib_load demo_library MODEL_PATH = inr (Some Pipeline)
  /\ result_of (home demo_library "<html>")
       (globals_after (load_resources demo_library)
          (initial_globals : globals artifact))
     = inr "<html>".
Proof.
  split; [reflexivity |]. split; [reflexivity |].
  destruct (successful_startup_serves demo_builtins demo_library "<html>"
              (form_request "99") ColumnTransformer Pipeline eq_refl eq_refl)
    as [Hh _].
  unfold result_of. rewrite Hh. reflexivity.
Defined.

Lemma dashboard_served_predict_refused_witness :
  let g := globals_after (load_resources empty_model_library)
             (initial_globals : globals artifact) in
  RESOURCES_LOADED g = true
  /\ model g = None
  /\ result_of (home empty_model_library "<html>") g = inr "<html>"
  /\ result_of (predict demo_builtins empty_model_library (form_request "99")) g
     = inr not_loaded_response.
Proof.
  intros g. split; [reflexivity |]. split; [reflexivity |].
  destruct (dashboard_served_predict_refused demo_builtins empty_model_library
              "<html>" (form_request "99") g eq_refl (or_introl eq_refl))
    as [Hh Hp].
  unfold result_of. rewrite Hh, Hp. split; reflexivity.
Defined.

Lemma non_object_body_is_500_witness :
  resources_ready loaded_globals
  /\ exists e,
       exn_cls e = TypeError
       /\ result_of (predict demo_builtins demo_library list_body) loaded_globals
          = inr (prediction_error_response e).
Proof.
  split; [exact loaded_globals_ready |].
  destruct (non_object_body_is_500 demo_builtins demo_library list_body
              (PList [PStr "1200.50"; PStr "Telangana"]) loaded_globals
              loaded_globals_ready eq_refl) as (e & Hc & E).
  { intros d. discriminate. }
  exists e. split; [exact Hc |]. unfold result_of. rewrite E. reflexivity.
Defined.

Lemma undecodable_body_is_500_witness :
  resources_ready loaded_globals
  /\ result_of (predict demo_builtins demo_library garbled_body) loaded_globals
     = inr {| body := [("error",
                        JStr "An error occurred during prediction: 400 Bad Request: Failed to decode JSON object")];
              status := 500 |}.
Proof.
  split; [exact loaded_globals_ready |].
  destruct (undecodable_body_is_500 demo_builtins demo_library garbled_body
              bad_request loaded_globals loaded_globals_ready eq_refl)
    as [E _].
  unfold result_of. rewrite E. reflexivity.
Defined.

Lemma first_missing_key_reported_witness :
  resources_ready loaded_globals
  /\ first_missing_key amount_fields = Some "state"
  /\ result_of (predict demo_builtins demo_library amount_only) loaded_globals
     = inr {| body := [("error",
                        JStr "An error occurred during prediction: 'state'")];
              status := 500 |}.
Proof.
  split; [exact loaded_globals_ready |]. split; [reflexivity |].
  assert (Hconv : forall v, amount_fields !! "amount" = Some v ->
                    exists f, py_float demo_builtins v = inr f).
  { intros v Hv.
    assert (v = PStr "99") as -> by (vm_compute in Hv; congruence).
    eexists. reflexivity. }
  unfold result_of.
  rewrite (first_missing_key_reported demo_builtins demo_library amount_only
             amount_fields "state" loaded_globals
             loaded_globals_ready eq_refl Hconv eq_refl).
  reflexivity.
Defined.

Lemma other_keys_are_ignored_witness :
  (forall k, k ∈ request_keys ->
     <["note" := PStr "urgent"]> (form_fields "99") !! k = form_fields "99" !! k)
  /\ predict demo_builtins demo_library annotated_request loaded_globals
     = predict demo_builtins demo_library (form_request "99") loaded_globals.
Proof.
  assert (H : forall k, k ∈ request_keys ->
     <["note" := PStr "urgent"]> (form_fields "99") !! k = form_fields "99" !! k).
  { intros k Hk. apply lookup_insert_ne. intros <-.
    unfold request_keys in Hk.
    repeat (apply elem_of_cons in Hk as [Hk | Hk]; [discriminate |]).
    apply elem_of_nil in Hk. exact Hk. }
  split; [exact H |].
  exact (other_keys_are_ignored demo_builtins demo_library annotated_request
           (form_request "99") _ _ loaded_globals eq_refl eq_refl H).
Defined.

Lemma amount_seen_through_float_witness :
  form_fields "99" !! "amount" = Some (PStr "99")
  /\ py_float demo_builtins (PInt 99) = py_float demo_builtins (PStr "99")
  /\ predict demo_builtins demo_library numeric_request loaded_globals
     = predict demo_builtins demo_library (form_request "99") loaded_globals.
Proof.
  split; [reflexivity |]. split; [reflexivity |].
  exact (proj1 (amount_seen_through_float demo_builtins demo_library
                  (form_request "99") numeric_request (form_fields "99")
                  (PStr "99") (PInt 99) loaded_globals
                  eq_refl eq_refl eq_refl eq_refl)).
Defined.

Lemma failures_are_printed_witness :
  EvPrint "Prediction Error: 'state'"
    ∈ trace_of (predict demo_builtins demo_library amount_only) loaded_globals.
Proof.
  apply (proj2 (failures_are_printed demo_builtins demo_library amount_only
                  "Prediction Error: 'state'" loaded_globals)).
  exists (Exn KeyError "'state'"). split; reflexivity.
Defined.

Lemma preprocessor_failure_is_500_witness :
  EvTransform ColumnTransformer (form_record 9900)
    ∈ trace_of (predict demo_builtins strict_library (form_request "99"))
        loaded_globals
  /\ result_of (predict demo_builtins strict_library (form_request "99"))
       loaded_globals
     = inr (prediction_error_response unknown_category).
Proof.
  assert (H : EvTransform ColumnTransformer (form_record 9900)
                ∈ trace_of (predict demo_builtins strict_library
                              (form_request "99")) loaded_globals)
    by (vm_compute; apply list_elem_of_here).
  split; [exact H |]. unfold result_of.
  rewrite (preprocessor_failure_is_500 demo_builtins strict_library
             (form_request "99") ColumnTransformer (form_record 9900)
             unknown_category loaded_globals H eq_refl).
  reflexivity.
Defined.

Lemma classifier_failure_is_500_witness :
  EvTransform ColumnTransformer (form_record 9900)
    ∈ trace_of (predict demo_builtins unfitted_library (form_request "99"))
        loaded_globals
  /\ trace_of (predict demo_builtins unfitted_library (form_request "99"))
       loaded_globals
     = [EvTransform ColumnTransformer (form_record 9900);
        EvPredict Pipeline 9900%Z;
        EvPrint "Prediction Error: This Pipeline instance is not fitted yet."].
Proof.
  assert (H : EvTransform ColumnTransformer (form_record 9900)
                ∈ trace_of (predict demo_builtins unfitted_library
                              (form_request "99")) loaded_globals)
    by (vm_compute; apply list_elem_of_here).
  split; [exact H |]. unfold trace_of.
  rewrite (classifier_failure_is_500 demo_builtins unfitted_library
             (form_request "99") ColumnTransformer (form_record 9900)
             9900%Z Pipeline not_fitted loaded_globals H
             eq_refl eq_refl eq_refl).
  reflexivity.
Defined.

Lemma empty_prediction_is_500_witness :
  EvTransform ColumnTransformer (form_record 9900)
    ∈ trace_of (predict demo_builtins silent_library (form_request "99"))
        loaded_globals
  /\ exists e,
       exn_cls e = IndexError
       /\ result_of (predict demo_builtins silent_library (form_request "99"))
            loaded_globals
          = inr (prediction_error_response e).
Proof.
  assert (H : EvTransform ColumnTransformer (form_record 9900)
                ∈ trace_of (predict demo_builtins silent_library
                              (form_request "99")) loaded_globals)
    by (vm_compute; apply list_elem_of_here).
  split; [exact H |].
  destruct (empty_prediction_is_500 demo_builtins silent_library
              (form_request "99") ColumnTransformer (form_record 9900)
              9900%Z Pipeline loaded_globals H eq_refl eq_refl eq_refl)
    as (e & Hc & E).
  exists e. split; [exact Hc |]. unfold result_of. rewrite E. reflexivity.
Defined.

Lemma missing_fraud_column_is_500_witness :
  EvTransform ColumnTransformer (form_record 9900)
    ∈ trace_of (predict demo_builtins one_class_library (form_request "99"))
        loaded_globals
  /\ exists e,
       exn_cls e = IndexError
       /\ result_of (predict demo_builtins one_class_library (form_request "99"))
            loaded_globals
          = inr (prediction_error_response e).
Proof.
  assert (H : EvTransform ColumnTransformer (form_record 9900)
                ∈ trace_of (predict demo_builtins one_class_library
                              (form_request "99")) loaded_globals)
    by (vm_compute; apply list_elem_of_here).
  split; [exact H |].
  destruct (missing_fraud_column_is_500 demo_builtins one_class_library
              (form_request "99") ColumnTransformer (form_record 9900)
              9900%Z Pipeline [0%Z] 0%Z [[100%Z]] loaded_globals H
              eq_refl eq_refl eq_refl eq_refl eq_refl)
    as (e & Hc & E).
  { intros r [= <-]. simpl. lia. }
  exists e. split; [exact Hc |]. unfold result_of. rewrite E. reflexivity.
Defined.
